(** * AthleteEdge: goal progress, analytics roll-ups and report summary

    A shallow embedding of the computational core of the AthleteEdge
    server:

    - [server/models/Goal.js]: the [updateProgress] method and the
      [daysRemaining] and [isOverdue] virtuals;
    - [server/models/Stat.js]: the derived percentage virtuals;
    - the reports routes: [calculateAnalytics], [calculateGoalProgress],
      [calculateTeamAverages], [generateSummary] and the entries of the
      team report;
    - [server/routes/goals.js]: the creation of a goal, the permission
      checks and the goal analytics;
    - [server/routes/stats.js]: the performance analytics route.

    JavaScript numbers are modelled by exact rationals extended with
    [Infinity], [-Infinity] and [NaN]. The sign of zero is not tracked, so
    a division by zero yields [Infinity] or [-Infinity] according to the
    sign of the dividend alone, and [NaN] for [0/0]. Arithmetic on finite
    values is exact, where the program rounds every result to double
    precision and overflows to an infinity beyond about [1.8 * 10^308].
    The lemmas below are facts of this model; the theorems are stated so
    that they hold of the double-precision program too: they are about
    the control flow and the
    stored documents; about order, which rounding to nearest keeps,
    together with every bound that is itself a double; about integers
    small enough to be exact; or they compare a computed value with its
    formula over the reals up to an explicit rounding allowance, for
    operands of moderate magnitude.

    A schema path of type [Number] holds a finite value: its cast
    refuses [NaN], and the infinities, which only a request that spells
    them out could store, are left out. Values produced by arithmetic are
    general numbers. *)

From Stdlib Require Import QArith Qcanon Qround Lqa.
From stdpp Require Import base decidable option numbers list strings gmap
  sorting.

Local Open Scope Z_scope.

(** * JavaScript numbers *)

Module JS.

Inductive number : Type :=
| Fin (q : Qc)
| PosInf
| NegInf
| NaN.

#[global] Instance number_eq_dec : EqDecision number.
Proof. solve_decision. Defined.

(** An integer literal. *)
Definition int (z : Z) : number := Fin (Qc_of_Z z).

Definition is_finite (n : number) : Prop :=
  match n with Fin _ => True | _ => False end.

(** The sign of a finite value, as a comparison with zero. *)
Definition sgn (q : Qc) : comparison := (q ?= 0)%Qc.

Definition neg (a : number) : number :=
  match a with
  | Fin q => Fin (- q)%Qc
  | PosInf => NegInf
  | NegInf => PosInf
  | NaN => NaN
  end.

(** [a + b] *)
Definition add (a b : number) : number :=
  match a, b with
  | NaN, _ | _, NaN => NaN
  | Fin x, Fin y => Fin (x + y)%Qc
  | PosInf, NegInf | NegInf, PosInf => NaN
  | PosInf, _ | _, PosInf => PosInf
  | NegInf, _ | _, NegInf => NegInf
  end.

(** [a - b] *)
Definition sub (a b : number) : number := add a (neg b).

(** An infinity of the given sign; [NaN] for the product [0 * Infinity]. *)
Definition signed_inf (s : comparison) : number :=
  match s with Gt => PosInf | Lt => NegInf | Eq => NaN end.

(** [a * b] *)
Definition mul (a b : number) : number :=
  match a, b with
  | NaN, _ | _, NaN => NaN
  | Fin x, Fin y => Fin (x * y)%Qc
  | Fin x, PosInf | PosInf, Fin x => signed_inf (sgn x)
  | Fin x, NegInf | NegInf, Fin x => signed_inf (CompOpp (sgn x))
  | PosInf, PosInf | NegInf, NegInf => PosInf
  | PosInf, NegInf | NegInf, PosInf => NegInf
  end.

(** [a / b]; a zero divisor is taken as positive zero. *)
Definition div (a b : number) : number :=
  match a, b with
  | NaN, _ | _, NaN => NaN
  | Fin x, Fin y =>
      if decide (y = 0%Qc) then signed_inf (sgn x) else Fin (x / y)%Qc
  | Fin _, (PosInf | NegInf) => Fin 0%Qc
  | PosInf, Fin y => match sgn y with Lt => NegInf | _ => PosInf end
  | NegInf, Fin y => match sgn y with Lt => PosInf | _ => NegInf end
  | (PosInf | NegInf), (PosInf | NegInf) => NaN
  end.

(** [a < b]; every comparison with [NaN] is false. *)
Definition lt (a b : number) : bool :=
  match a, b with
  | NaN, _ | _, NaN => false
  | Fin x, Fin y => bool_decide (x < y)%Qc
  | NegInf, (Fin _ | PosInf) => true
  | Fin _, PosInf => true
  | _, _ => false
  end.

(** [a > b] *)
Definition gt (a b : number) : bool := lt b a.

(** [a <= b] *)
Definition le (a b : number) : bool :=
  match a, b with
  | NaN, _ | _, NaN => false
  | Fin x, Fin y => bool_decide (x <= y)%Qc
  | NegInf, _ | _, PosInf => true
  | _, _ => false
  end.

(** [a >= b] *)
Definition ge (a b : number) : bool := le b a.

(** [Math.min(a, b)] *)
Definition Math_min (a b : number) : number :=
  match a, b with
  | NaN, _ | _, NaN => NaN
  | _, _ => if lt b a then b else a
  end.

(** [Math.max(a, b)] *)
Definition Math_max (a b : number) : number :=
  match a, b with
  | NaN, _ | _, NaN => NaN
  | _, _ => if lt a b then b else a
  end.

(** [Math.abs(a)] *)
Definition Math_abs (a : number) : number :=
  match a with
  | Fin q => if bool_decide (q < 0)%Qc then Fin (- q)%Qc else Fin q
  | PosInf | NegInf => PosInf
  | NaN => NaN
  end.

(** [Math.round(a)]: the nearest integer, a tie going to the larger one. *)
Definition round_half_up (q : Qc) : Z := Qfloor (q + Q2Qc (1 # 2))%Qc.

Definition Math_round (a : number) : number :=
  match a with
  | Fin q => int (round_half_up q)
  | other => other
  end.

(** ToBoolean on a number: [0] and [NaN] are falsy. *)
Definition truthy (a : number) : bool :=
  match a with
  | Fin q => bool_decide (q <> 0%Qc)
  | PosInf | NegInf => true
  | NaN => false
  end.

(** ToNumber on the result of a property read: a missing property reads
    as [undefined], which converts to [NaN]. *)
Definition ToNumber (v : option number) : number := default NaN v.

(** [n || 0] on a number. *)
Definition or_zero (n : number) : number := if truthy n then n else int 0.

(** [v || 0] on the result of a property read. *)
Definition opt_or_zero (v : option number) : number :=
  match v with
  | Some n => or_zero n
  | None => int 0
  end.

(** [Math.ceil(a)] *)
Definition Math_ceil (a : number) : number :=
  match a with
  | Fin q => int (Qceiling q)
  | other => other
  end.

End JS.

Abbreviation number := JS.number.

(** Dates are instants, in milliseconds since the epoch; identifiers are
    opaque strings. *)
Definition Date := Z.
Definition ObjectId := string.

(** [new Date()] reads the system clock. The clock is the sequence of the
    readings still to come: a read returns the first and leaves the rest. *)
Definition Clock := nat -> Date.

Definition new_Date (clk : Clock) : Date * Clock :=
  (clk 0%nat, fun n => clk (S n)).

(** * The Goal model ([server/models/Goal.js]) *)

Module Goal.

Inductive Direction := increase | decrease | maintain.

Inductive Status := active | completed | paused | cancelled | overdue.

#[global] Instance Direction_eq_dec : EqDecision Direction.
Proof. solve_decision. Defined.

#[global] Instance Status_eq_dec : EqDecision Status.
Proof. solve_decision. Defined.

Record TargetMetric := {
  name : string;
  currentValue : Qc;
  targetValue : Qc;
  unit : string;
  direction : Direction
}.

Module Milestone.
Record t := {
  title : string;
  targetValue : Qc;
  achievedValue : option Qc;
  achieved : bool;
  achievedDate : option Date;
  notes : option string
}.
End Milestone.

(** An entry of [progress.updates]. *)
Record Update := {
  date : Date;
  value : Qc;
  notes : option string;
  updatedBy : ObjectId
}.

Record Progress := {
  percentage : number;
  milestones : list Milestone.t;
  updates : list Update
}.

Module Feedback.
Record t := {
  date : Date;
  feedback : string;
  rating : Z;
  coach : ObjectId
}.
End Feedback.

Module Reminders.
Record t := {
  enabled : bool;
  frequency : string;
  lastReminder : option Date;
  nextReminder : option Date
}.
End Reminders.

Record t := {
  athlete : ObjectId;
  title : string;
  description : option string;
  category : string;
  sport : string;
  targetMetric : TargetMetric;
  startDate : Date;
  targetDate : Date;
  status : Status;
  priority : string;
  progress : Progress;
  createdBy : ObjectId;
  canEdit : list ObjectId;
  canView : list ObjectId;
  reminders : Reminders.t;
  tags : list string;
  completedAt : option Date;
  completionNotes : option string;
  coachFeedback : list Feedback.t
}.

(** Assignments to single paths of the document. *)

Definition set_currentValue (v : Qc) (g : t) : t :=
  {| athlete := athlete g; title := title g; description := description g;
     category := category g; sport := sport g;
     targetMetric :=
       {| name := name (targetMetric g); currentValue := v;
          targetValue := targetValue (targetMetric g);
          unit := unit (targetMetric g);
          direction := direction (targetMetric g) |};
     startDate := startDate g; targetDate := targetDate g;
     status := status g; priority := priority g; progress := progress g;
     createdBy := createdBy g; canEdit := canEdit g; canView := canView g;
     reminders := reminders g; tags := tags g; completedAt := completedAt g;
     completionNotes := completionNotes g;
     coachFeedback := coachFeedback g |}.

Definition set_progress (p : Progress) (g : t) : t :=
  {| athlete := athlete g; title := title g; description := description g;
     category := category g; sport := sport g;
     targetMetric := targetMetric g;
     startDate := startDate g; targetDate := targetDate g;
     status := status g; priority := priority g; progress := p;
     createdBy := createdBy g; canEdit := canEdit g; canView := canView g;
     reminders := reminders g; tags := tags g; completedAt := completedAt g;
     completionNotes := completionNotes g;
     coachFeedback := coachFeedback g |}.

Definition set_percentage (p : number) (g : t) : t :=
  set_progress
    {| percentage := p; milestones := milestones (progress g);
       updates := updates (progress g) |} g.

Definition push_update (u : Update) (g : t) : t :=
  set_progress
    {| percentage := percentage (progress g);
       milestones := milestones (progress g);
       updates := updates (progress g) ++ [u] |} g.

Definition set_status (s : Status) (g : t) : t :=
  {| athlete := athlete g; title := title g; description := description g;
     category := category g; sport := sport g;
     targetMetric := targetMetric g;
     startDate := startDate g; targetDate := targetDate g;
     status := s; priority := priority g; progress := progress g;
     createdBy := createdBy g; canEdit := canEdit g; canView := canView g;
     reminders := reminders g; tags := tags g; completedAt := completedAt g;
     completionNotes := completionNotes g;
     coachFeedback := coachFeedback g |}.

Definition set_completedAt (d : Date) (g : t) : t :=
  {| athlete := athlete g; title := title g; description := description g;
     category := category g; sport := sport g;
     targetMetric := targetMetric g;
     startDate := startDate g; targetDate := targetDate g;
     status := status g; priority := priority g; progress := progress g;
     createdBy := createdBy g; canEdit := canEdit g; canView := canView g;
     reminders := reminders g; tags := tags g; completedAt := Some d;
     completionNotes := completionNotes g;
     coachFeedback := coachFeedback g |}.

(** The percentage computed from [{ currentValue, targetValue, direction }],
    before rounding. *)
Definition raw_percentage (m : TargetMetric) : number :=
  let currentValue := JS.Fin (currentValue m) in
  let targetValue := JS.Fin (targetValue m) in
  match direction m with
  | increase =>
      JS.Math_min (JS.int 100)
        (JS.mul (JS.div currentValue targetValue) (JS.int 100))
  | decrease =>
      JS.Math_min (JS.int 100)
        (JS.mul (JS.div (JS.sub targetValue currentValue) targetValue)
           (JS.int 100))
  | maintain =>
      let difference := JS.Math_abs (JS.sub currentValue targetValue) in
      JS.Math_max (JS.int 0)
        (JS.sub (JS.int 100)
           (JS.mul (JS.div difference targetValue) (JS.int 100)))
  end.

(** The assignment [this.progress.percentage = p]: a schema path of type
    [Number] casts what it is assigned, the cast refuses [NaN], and a
    refused assignment leaves the path with the value it had. Every other
    number, the two infinities included, is stored. *)
Definition assign_percentage (p : number) (g : t) : t :=
  match p with
  | JS.NaN => g
  | _ => set_percentage p g
  end.

(** [goalSchema.methods.updateProgress]: the document after the body has
    run, as handed to [this.save()], and the clock after its reads. *)
Definition updateProgress (newValue : Qc) (notes : option string)
    (updatedBy : ObjectId) (this : t) (clk : Clock) : t * Clock :=
  let this := set_currentValue newValue this in
  let percentage := raw_percentage (targetMetric this) in
  let this := assign_percentage (JS.Math_round percentage) this in
  let '(now, clk) := new_Date clk in
  let this :=
    push_update
      {| date := now; value := newValue; notes := notes;
         updatedBy := updatedBy |} this in
  let '(this, clk) :=
    if JS.ge (Goal.percentage (progress this)) (JS.int 100)
       && bool_decide (status this = active)
    then
      let this := set_status completed this in
      let '(now, clk) := new_Date clk in
      (set_completedAt now this, clk)
    else (this, clk) in
  let '(now, clk) := new_Date clk in
  let this :=
    if bool_decide (targetDate this < now)
       && bool_decide (status this = active)
    then set_status overdue this
    else this in
  (this, clk).

(** The validators the schema declares on [progress.percentage]:
    [{ type: Number, min: 0, max: 100 }]. *)
Definition percentage_in_schema_range (p : number) : bool :=
  JS.le (JS.int 0) p && JS.le p (JS.int 100).

(** [1000 * 60 * 60 * 24], the milliseconds of a day. *)
Definition ms_per_day : number :=
  JS.mul (JS.mul (JS.mul (JS.int 1000) (JS.int 60)) (JS.int 60)) (JS.int 24).

(** [goalSchema.virtual('daysRemaining')]: the difference of two dates is
    the difference of their instants. *)
Definition daysRemaining (this : t) (clk : Clock) : number * Clock :=
  let '(now, clk) := new_Date clk in
  let target := targetDate this in
  let diffTime := JS.sub (JS.int target) (JS.int now) in
  let diffDays := JS.Math_ceil (JS.div diffTime ms_per_day) in
  (JS.Math_max (JS.int 0) diffDays, clk).

(** [goalSchema.virtual('isOverdue')]: the clock is read only when the
    left operand of [&&] holds. *)
Definition isOverdue (this : t) (clk : Clock) : bool * Clock :=
  if bool_decide (status this = active) then
    let '(now, clk) := new_Date clk in
    (bool_decide (targetDate this < now), clk)
  else (false, clk).

End Goal.

(** * The Stat model ([server/models/Stat.js]) *)

Module Stat.

Module Basketball.
Record t := {
  points : Qc;
  fieldGoalsMade : Qc;
  fieldGoalsAttempted : Qc;
  threePointersMade : Qc;
  threePointersAttempted : Qc;
  freeThrowsMade : Qc;
  freeThrowsAttempted : Qc;
  rebounds : Qc;
  offensiveRebounds : Qc;
  defensiveRebounds : Qc;
  assists : Qc;
  steals : Qc;
  blocks : Qc;
  turnovers : Qc;
  personalFouls : Qc
}.
End Basketball.

Module Soccer.
Record t := {
  goals : Qc;
  assists : Qc;
  shots : Qc;
  shotsOnGoal : Qc;
  passes : Qc;
  passesCompleted : Qc;
  tackles : Qc;
  interceptions : Qc;
  fouls : Qc;
  yellowCards : Qc;
  redCards : Qc
}.
End Soccer.

Module Football.
Record t := {
  passingYards : Qc;
  passingAttempts : Qc;
  passingCompletions : Qc;
  passingTouchdowns : Qc;
  interceptions : Qc;
  rushingYards : Qc;
  rushingAttempts : Qc;
  rushingTouchdowns : Qc;
  receivingYards : Qc;
  receptions : Qc;
  receivingTouchdowns : Qc;
  tackles : Qc;
  sacks : Qc;
  forcedFumbles : Qc
}.
End Football.

Record t := {
  athlete : ObjectId;
  gameDate : Date;
  sport : string;
  gameType : string;
  opponent : option string;
  teamScore : option Qc;
  opponentScore : option Qc;
  minutesPlayed : option Qc;
  basketball : Basketball.t;
  soccer : Soccer.t;
  football : Football.t;
  notes : option string;
  verified : bool;
  verifiedBy : option ObjectId;
  verifiedAt : option Date
}.

(** [basketball.fieldGoalPercentage] *)
Definition fieldGoalPercentage (this : t) : number :=
  if JS.gt (JS.Fin (Basketball.fieldGoalsAttempted (basketball this)))
       (JS.int 0)
  then JS.mul
         (JS.div (JS.Fin (Basketball.fieldGoalsMade (basketball this)))
            (JS.Fin (Basketball.fieldGoalsAttempted (basketball this))))
         (JS.int 100)
  else JS.int 0.

(** [basketball.threePointPercentage] *)
Definition threePointPercentage (this : t) : number :=
  if JS.gt (JS.Fin (Basketball.threePointersAttempted (basketball this)))
       (JS.int 0)
  then JS.mul
         (JS.div (JS.Fin (Basketball.threePointersMade (basketball this)))
            (JS.Fin (Basketball.threePointersAttempted (basketball this))))
         (JS.int 100)
  else JS.int 0.

(** [basketball.freeThrowPercentage] *)
Definition freeThrowPercentage (this : t) : number :=
  if JS.gt (JS.Fin (Basketball.freeThrowsAttempted (basketball this)))
       (JS.int 0)
  then JS.mul
         (JS.div (JS.Fin (Basketball.freeThrowsMade (basketball this)))
            (JS.Fin (Basketball.freeThrowsAttempted (basketball this))))
         (JS.int 100)
  else JS.int 0.

(** [soccer.passAccuracy] *)
Definition passAccuracy (this : t) : number :=
  if JS.gt (JS.Fin (Soccer.passes (soccer this))) (JS.int 0)
  then JS.mul
         (JS.div (JS.Fin (Soccer.passesCompleted (soccer this)))
            (JS.Fin (Soccer.passes (soccer this))))
         (JS.int 100)
  else JS.int 0.


End Stat.

(** * Analytics, goal roll-up, team averages and summary (reports routes) *)

Module Reports.

(** [xs.length] as a number. *)
Definition length_of {A} (xs : list A) : number :=
  JS.int (Z.of_nat (length xs)).

(** [xs.reduce((sum, x) => sum + f(x), 0)] *)
Definition sum {A} (f : A -> number) (xs : list A) : number :=
  foldl (fun sum x => JS.add sum (f x)) (JS.int 0) xs.

(** The accumulator of the [bestGame] reduction: the seed literal
    [{ basketball: { points: 0 } }] or a Stat document. *)
Inductive Best :=
| Seed
| Doc (stat : Stat.t).

(** [best.points]: the seed literal has the single property [basketball],
    and the Stat schema declares no top-level path [points]; the read is
    [undefined] on both. *)
Definition Best_points (best : Best) : option number :=
  match best with
  | Seed => None
  | Doc _ => None
  end.

(** [best.basketball.points] *)
Definition Best_basketball_points (best : Best) : number :=
  match best with
  | Seed => JS.int 0
  | Doc stat => JS.Fin (Stat.Basketball.points (Stat.basketball stat))
  end.

(** [stats.reduce((best, stat) =>
       stat.basketball.points > best.points ? stat : best,
       { basketball: { points: 0 } })],
    as written in [calculateAnalytics] and in the performance analytics
    route of [server/routes/stats.js]. *)
Definition reduce_bestGame (stats : list Stat.t) : Best :=
  foldl
    (fun best stat =>
       if JS.gt (JS.Fin (Stat.Basketball.points (Stat.basketball stat)))
            (JS.ToNumber (Best_points best))
       then Doc stat
       else best)
    Seed stats.

(** The object returned by [calculateAnalytics]; a property that the
    returned literal does not have is [None]. *)
Record Analytics := {
  totalGames : number;
  averagePoints : option number;
  averageRebounds : option number;
  averageAssists : option number;
  averageFieldGoalPercentage : option number;
  averageThreePointPercentage : option number;
  averageFreeThrowPercentage : option number;
  bestGame : option Best;
  totalGoals : option number;
  totalAssists : option number;
  averagePassAccuracy : option number;
  averageShots : option number
}.

(** The literal [{ totalGames: n }]. *)
Definition only_totalGames (n : number) : Analytics :=
  {| totalGames := n;
     averagePoints := None; averageRebounds := None; averageAssists := None;
     averageFieldGoalPercentage := None;
     averageThreePointPercentage := None;
     averageFreeThrowPercentage := None;
     bestGame := None;
     totalGoals := None; totalAssists := None;
     averagePassAccuracy := None; averageShots := None |}.

Definition calculateAnalytics (stats : list Stat.t) (sport : string)
    : Analytics :=
  if decide (length stats = 0%nat) then only_totalGames (JS.int 0)
  else if decide (sport = "basketball") then
    {| totalGames := length_of stats;
       averagePoints := Some (JS.div
         (sum (fun stat => JS.or_zero
                 (JS.Fin (Stat.Basketball.points (Stat.basketball stat))))
            stats) (length_of stats));
       averageRebounds := Some (JS.div
         (sum (fun stat => JS.or_zero
                 (JS.Fin (Stat.Basketball.rebounds (Stat.basketball stat))))
            stats) (length_of stats));
       averageAssists := Some (JS.div
         (sum (fun stat => JS.or_zero
                 (JS.Fin (Stat.Basketball.assists (Stat.basketball stat))))
            stats) (length_of stats));
       averageFieldGoalPercentage := Some (JS.div
         (sum Stat.fieldGoalPercentage stats) (length_of stats));
       averageThreePointPercentage := Some (JS.div
         (sum Stat.threePointPercentage stats) (length_of stats));
       averageFreeThrowPercentage := Some (JS.div
         (sum Stat.freeThrowPercentage stats) (length_of stats));
       bestGame := Some (reduce_bestGame stats);
       totalGoals := None; totalAssists := None;
       averagePassAccuracy := None; averageShots := None |}
  else if decide (sport = "soccer") then
    {| totalGames := length_of stats;
       averagePoints := None; averageRebounds := None;
       averageAssists := None;
       averageFieldGoalPercentage := None;
       averageThreePointPercentage := None;
       averageFreeThrowPercentage := None;
       bestGame := None;
       totalGoals := Some
         (sum (fun stat => JS.or_zero
                 (JS.Fin (Stat.Soccer.goals (Stat.soccer stat)))) stats);
       totalAssists := Some
         (sum (fun stat => JS.or_zero
                 (JS.Fin (Stat.Soccer.assists (Stat.soccer stat)))) stats);
       averagePassAccuracy := Some (JS.div
         (sum Stat.passAccuracy stats) (length_of stats));
       averageShots := Some (JS.div
         (sum (fun stat => JS.or_zero
                 (JS.Fin (Stat.Soccer.shots (Stat.soccer stat)))) stats)
         (length_of stats)) |}
  else only_totalGames (length_of stats).

(** [calculateGoalProgress]: the returned object, by property name. *)
Definition calculateGoalProgress (goals : list Goal.t) : gmap string number :=
  if decide (length goals = 0%nat) then
    {[ "averageProgress" := JS.int 0;
       "completedGoals" := JS.int 0;
       "activeGoals" := JS.int 0 ]}
  else
    let activeGoals :=
      filter (fun g => Goal.status g = Goal.active) goals in
    let completedGoals :=
      filter (fun g => Goal.status g = Goal.completed) goals in
    let averageProgress :=
      JS.div (sum (fun goal => Goal.percentage (Goal.progress goal)) goals)
        (length_of goals) in
    {[ "totalGoals" := length_of goals;
       "activeGoals" := length_of activeGoals;
       "completedGoals" := length_of completedGoals;
       "averageProgress" := JS.Math_round averageProgress ]}.

(** An entry of [teamReport.athletes]. *)
Module TeamAthlete.
Record Goals := {
  total : number;
  averageProgress : option number
}.
Record t := {
  name : string;
  position : option string;
  totalGames : number;
  analytics : Analytics;
  goals : Goals
}.
End TeamAthlete.

(** [calculateTeamAverages]: the returned object, by property name. *)
Definition calculateTeamAverages (athletes : list TeamAthlete.t)
    (sport : string) : gmap string number :=
  if decide (length athletes = 0%nat) then ∅
  else
    let averages : gmap string number :=
      {[ "totalGames" :=
           JS.div (sum TeamAthlete.totalGames athletes)
             (length_of athletes);
         "averageGoalProgress" :=
           JS.div
             (sum (fun athlete =>
                     JS.ToNumber
                       (TeamAthlete.averageProgress
                          (TeamAthlete.goals athlete))) athletes)
             (length_of athletes) ]} in
    if decide (sport = "basketball") then
      let averages :=
        <[ "averagePoints" :=
             JS.div
               (sum (fun athlete =>
                       JS.opt_or_zero 
                         (averagePoints (TeamAthlete.analytics athlete)))
                  athletes) (length_of athletes) ]> averages in
      let averages :=
        <[ "averageRebounds" :=
             JS.div
               (sum (fun athlete =>
                       JS.opt_or_zero 
                         (averageRebounds (TeamAthlete.analytics athlete)))
                  athletes) (length_of athletes) ]> averages in
      <[ "averageAssists" :=
           JS.div
             (sum (fun athlete =>
                     JS.opt_or_zero 
                         (averageAssists (TeamAthlete.analytics athlete)))
                athletes) (length_of athletes) ]> averages
    else if decide (sport = "soccer") then
      let averages :=
        <[ "totalGoals" :=
             sum (fun athlete =>
                    JS.opt_or_zero 
                         (totalGoals (TeamAthlete.analytics athlete)))
               athletes ]> averages in
      <[ "totalAssists" :=
           sum (fun athlete =>
                  JS.opt_or_zero 
                         (totalAssists (TeamAthlete.analytics athlete)))
             athletes ]> averages
    else averages.

(** ** The summary text

    The conversion of a number to text (in a template literal, and by
    [toFixed(1)]) belongs to the JavaScript runtime; [generateSummary] takes
    the two conversions as parameters. *)

Section Summary.

Variable Number_toString : number -> string.
Variable toFixed1 : number -> string.

(** [`${v}`] on the result of a property read. *)
Definition interpolate (v : option number) : string :=
  match v with
  | Some n => Number_toString n
  | None => "undefined"
  end.

(** [`${v?.toFixed(1) || 0}`]: an empty string is falsy. *)
Definition fixed1_or_zero (v : option number) : string :=
  match v with
  | Some n =>
      let s := toFixed1 n in
      if decide (s = "") then Number_toString (JS.int 0) else s
  | None => Number_toString (JS.int 0)
  end.

Definition games_sentence (analytics : Analytics) : string :=
  "Played " +:+ Number_toString (totalGames analytics)
  +:+ " games in the reporting period.".

Definition basketball_sentence (analytics : Analytics) : string :=
  "Averaged " +:+ fixed1_or_zero (averagePoints analytics)
  +:+ " points, " +:+ fixed1_or_zero (averageRebounds analytics)
  +:+ " rebounds, and " +:+ fixed1_or_zero (averageAssists analytics)
  +:+ " assists per game.".

Definition soccer_sentence (analytics : Analytics) : string :=
  "Scored " +:+ Number_toString (JS.opt_or_zero (totalGoals analytics))
  +:+ " goals and provided "
  +:+ Number_toString (JS.opt_or_zero (totalAssists analytics))
  +:+ " assists.".

Definition goals_sentence (goalProgress : gmap string number) : string :=
  "Working on " +:+ interpolate (goalProgress !! "activeGoals")
  +:+ " active goals with "
  +:+ interpolate (goalProgress !! "averageProgress")
  +:+ "% average progress.".

Definition completed_sentence (goalProgress : gmap string number) : string :=
  "Successfully completed "
  +:+ interpolate (goalProgress !! "completedGoals") +:+ " goals.".

Definition generateSummary (analytics : Analytics)
    (goalProgress : gmap string number) (sport : string) : string :=
  let summary : list string := [] in
  let summary :=
    if JS.gt (totalGames analytics) (JS.int 0) then
      let summary := summary ++ [games_sentence analytics] in
      if decide (sport = "basketball") then
        summary ++ [basketball_sentence analytics]
      else if decide (sport = "soccer") then
        summary ++ [soccer_sentence analytics]
      else summary
    else summary in
  let summary :=
    if JS.gt (JS.ToNumber (goalProgress !! "totalGoals")) (JS.int 0) then
      let summary := summary ++ [goals_sentence goalProgress] in
      if JS.gt (JS.ToNumber (goalProgress !! "completedGoals")) (JS.int 0)
      then summary ++ [completed_sentence goalProgress]
      else summary
    else summary in
  String.concat " " summary.

(** The [summary] property of the athlete report: [generateSummary] applied
    to the analytics of the Stat documents and the roll-up of the goals. *)
Definition report_summary (stats : list Stat.t) (goals : list Goal.t)
    (sport : string) : string :=
  generateSummary (calculateAnalytics stats sport)
    (calculateGoalProgress goals) sport.

End Summary.

(** ** The team report

    An athlete of the team as the team route reads it: profile fields, the
    Stat documents of the period and the active goals. *)
Module Member.
Record t := {
  name : string;
  position : option string;
  sport : string;
  stats : list Stat.t;
  goals : list Goal.t
}.
End Member.

(** The entry pushed to [teamReport.athletes] for one athlete. *)
Definition teamAthlete (athlete : Member.t) : TeamAthlete.t :=
  let stats := Member.stats athlete in
  let goals := Member.goals athlete in
  let analytics := calculateAnalytics stats (Member.sport athlete) in
  let goalProgress := calculateGoalProgress goals in
  {| TeamAthlete.name := Member.name athlete;
     TeamAthlete.position := Member.position athlete;
     TeamAthlete.totalGames := length_of stats;
     TeamAthlete.analytics := analytics;
     TeamAthlete.goals :=
       {| TeamAthlete.total := length_of goals;
          TeamAthlete.averageProgress :=
            goalProgress !! "averageProgress" |} |}.

(** [teamReport.teamAverages] of the team route: [None] stands for the 404
    response sent when the team has no athlete; the sport of the averages
    is the sport of the first athlete. *)
Definition teamReport_averages (athletes : list Member.t)
    : option (gmap string number) :=
  match athletes with
  | [] => None
  | first :: _ =>
      Some (calculateTeamAverages (map teamAthlete athletes)
              (Member.sport first))
  end.

End Reports.

(** * The goals routes ([server/routes/goals.js]) *)

Module GoalsRoute.

(** [req.user]: the identifier and the role of the authenticated caller. *)
Record User := {
  id : ObjectId;
  role : string
}.

(** [ids.some(user => user.toString() === req.user.id)] *)
Definition some_is (ids : list ObjectId) (user : User) : bool :=
  existsb (fun other => bool_decide (other = id user)) ids.

(** The edit check of [PUT /:id] and [PUT /:id/progress]. *)
Definition canEdit (user : User) (goal : Goal.t) : bool :=
  bool_decide (role user = "admin") || some_is (Goal.canEdit goal) user.

(** The delete check of [DELETE /:id]. *)
Definition canDelete (user : User) (goal : Goal.t) : bool :=
  bool_decide (role user = "admin")
  || some_is (Goal.canEdit goal) user
  || bool_decide (Goal.createdBy goal = id user).

(** The view check of [GET /:id]; [athleteUser] is the user of the goal's
    athlete, [goal.athlete.user._id]. *)
Definition canView (user : User) (goal : Goal.t) (athleteUser : ObjectId)
    : bool :=
  bool_decide (role user = "admin")
  || some_is (Goal.canView goal) user
  || bool_decide (athleteUser = id user).

(** The body of [POST /api/goals], after validation. *)
Module Body.
Record TargetMetric := {
  name : string;
  currentValue : option Qc;
  targetValue : Qc;
  unit : string;
  direction : option Goal.Direction
}.
Record t := {
  title : string;
  description : option string;
  category : string;
  sport : string;
  targetMetric : TargetMetric;
  startDate : option Date;
  targetDate : Date;
  priority : option string;
  tags : option (list string)
}.
End Body.

(** [s || fallback] on an optional string: the empty string is falsy. *)
Definition string_or (s : option string) (fallback : string) : string :=
  match s with
  | Some v => if decide (v = "") then fallback else v
  | None => fallback
  end.

(** [v || 0] on an optional finite number. *)
Definition value_or_zero (v : option Qc) : Qc :=
  match v with
  | Some q => if decide (q = 0%Qc) then 0%Qc else q
  | None => 0%Qc
  end.

(** [new Goal(goalData)] of [POST /api/goals]: the data built from the
    request, completed by the defaults of the schema ([status],
    [progress], [reminders]). [targetAthleteId] is the athlete the route
    resolved. *)
Definition create (user : User) (targetAthleteId : ObjectId)
    (body : Body.t) (clk : Clock) : Goal.t * Clock :=
  let '(startDate, clk) :=
    match Body.startDate body with
    | Some d => (d, clk)
    | None => new_Date clk
    end in
  let canEdit := [id user] in
  let canView := [id user] in
  let '(canEdit, canView) :=
    if decide (role user = "coach")
    then (canEdit ++ [id user], canView ++ [id user])
    else (canEdit, canView) in
  ({| Goal.athlete := targetAthleteId;
      Goal.title := Body.title body;
      Goal.description := Body.description body;
      Goal.category := Body.category body;
      Goal.sport := Body.sport body;
      Goal.targetMetric :=
        {| Goal.name := Body.name (Body.targetMetric body);
           Goal.currentValue :=
             value_or_zero (Body.currentValue (Body.targetMetric body));
           Goal.targetValue := Body.targetValue (Body.targetMetric body);
           Goal.unit := Body.unit (Body.targetMetric body);
           Goal.direction :=
             default Goal.increase
               (Body.direction (Body.targetMetric body)) |};
      Goal.startDate := startDate;
      Goal.targetDate := Body.targetDate body;
      Goal.status := Goal.active;
      Goal.priority := string_or (Body.priority body) "medium";
      Goal.progress :=
        {| Goal.percentage := JS.int 0; Goal.milestones := [];
           Goal.updates := [] |};
      Goal.createdBy := id user;
      Goal.canEdit := canEdit;
      Goal.canView := canView;
      Goal.reminders :=
        {| Goal.Reminders.enabled := true;
           Goal.Reminders.frequency := "weekly";
           Goal.Reminders.lastReminder := None;
           Goal.Reminders.nextReminder := None |};
      Goal.tags := default [] (Body.tags body);
      Goal.completedAt := None;
      Goal.completionNotes := None;
      Goal.coachFeedback := [] |}, clk).

(** ** [GET /api/goals/analytics/progress] *)

(** [goal.status] as the string the schema stores. *)
Definition status_name (s : Goal.Status) : string :=
  match s with
  | Goal.active => "active"
  | Goal.completed => "completed"
  | Goal.paused => "paused"
  | Goal.cancelled => "cancelled"
  | Goal.overdue => "overdue"
  end.

(** [counts[key] = (counts[key] || 0) + 1] *)
Definition bump (counts : gmap string number) (key : string)
    : gmap string number :=
  <[ key := JS.add (JS.opt_or_zero (counts !! key)) (JS.int 1) ]> counts.

(** The [forEach] that fills [goalsByCategory] and [goalsByStatus]. *)
Definition tally (goals : list Goal.t)
    : gmap string number * gmap string number :=
  foldl
    (fun counts goal =>
       (bump counts.1 (Goal.category goal),
        bump counts.2 (status_name (Goal.status goal))))
    (∅, ∅) goals.

(** An entry of [recentProgress]. *)
Record Recent := {
  title : string;
  progress : number;
  lastUpdate : Date
}.

(** The callback of [map]: [updates[updates.length - 1].date] is read on
    the last entry of the log; [None] stands for the TypeError of the read
    on an empty log. *)
Definition recent (g : Goal.t) : option Recent :=
  match last (Goal.updates (Goal.progress g)) with
  | Some u =>
      Some {| title := Goal.title g;
              progress := Goal.percentage (Goal.progress g);
              lastUpdate := Goal.date u |}
  | None => None
  end.

(** The comparator [(a, b) => new Date(b.lastUpdate) - new Date(a.lastUpdate)]. *)
Definition by_lastUpdate_desc (a b : Recent) : number :=
  JS.sub (JS.int (lastUpdate b)) (JS.int (lastUpdate a)).

(** [Array.prototype.sort(compare)], a stable sort: an element moves
    behind the elements that precede it only when the comparator is
    positive. *)
Fixpoint insert_sorted {A} (compare : A -> A -> number) (x : A)
    (sorted : list A) : list A :=
  match sorted with
  | [] => [x]
  | y :: rest =>
      if JS.gt (compare x y) (JS.int 0)
      then y :: insert_sorted compare x rest
      else x :: y :: rest
  end.

Definition sort {A} (compare : A -> A -> number) (xs : list A) : list A :=
  foldr (insert_sorted compare) [] xs.

(** [goals.filter(g => g.progress.updates.length > 0).map(...)
      .sort(...).slice(0, 10)]; [None] stands for a TypeError raised by
    the callback of [map]. *)
Definition recentProgress_of (goals : list Goal.t) : option (list Recent) :=
  let withUpdates :=
    filter
      (fun g =>
         JS.gt (Reports.length_of (Goal.updates (Goal.progress g)))
           (JS.int 0) = true) goals in
  entries ← mapM recent withUpdates;
  Some (take 10 (sort by_lastUpdate_desc entries)).

Record ProgressAnalytics := {
  totalGoals : number;
  activeGoals : number;
  completedGoals : number;
  overdueGoals : number;
  averageProgress : number;
  goalsByCategory : gmap string number;
  goalsByStatus : gmap string number;
  recentProgress : option (list Recent)
}.

Definition progressAnalytics (goals : list Goal.t) : ProgressAnalytics :=
  {| totalGoals := Reports.length_of goals;
     activeGoals :=
       Reports.length_of
         (filter (fun g => Goal.status g = Goal.active) goals);
     completedGoals :=
       Reports.length_of
         (filter (fun g => Goal.status g = Goal.completed) goals);
     overdueGoals :=
       Reports.length_of
         (filter (fun g => Goal.status g = Goal.overdue) goals);
     averageProgress :=
       JS.or_zero
         (JS.div
            (Reports.sum (fun goal => Goal.percentage (Goal.progress goal))
               goals)
            (Reports.length_of goals));
     goalsByCategory := (tally goals).1;
     goalsByStatus := (tally goals).2;
     recentProgress := recentProgress_of goals |}.

End GoalsRoute.

(** * The performance analytics route ([server/routes/stats.js]) *)

Module StatsRoute.

(** An entry of [analytics.trendData]. *)
Record Trend := {
  date : Date;
  points : number;
  rebounds : number;
  assists : number;
  goals : number;
  passAccuracy : number
}.

(** The [analytics] object of the response; a property that the object
    does not have is [None]. *)
Record Analytics := {
  totalGames : option number;
  averagePoints : option number;
  averageRebounds : option number;
  averageAssists : option number;
  averageFieldGoalPercentage : option number;
  averageThreePointPercentage : option number;
  averageFreeThrowPercentage : option number;
  bestGame : option Reports.Best;
  totalGoals : option number;
  totalAssists : option number;
  averagePassAccuracy : option number;
  averageShots : option number;
  trendData : list Trend
}.

(** [stats.reduce((sum, stat) => sum + f(stat), 0) / stats.length || 0] *)
Definition average_or_zero (f : Stat.t -> number) (stats : list Stat.t)
    : number :=
  JS.or_zero (JS.div (Reports.sum f stats) (Reports.length_of stats)).

Definition trend (stat : Stat.t) : Trend :=
  {| date := Stat.gameDate stat;
     points :=
       JS.or_zero (JS.Fin (Stat.Basketball.points (Stat.basketball stat)));
     rebounds :=
       JS.or_zero (JS.Fin (Stat.Basketball.rebounds (Stat.basketball stat)));
     assists :=
       JS.or_zero (JS.Fin (Stat.Basketball.assists (Stat.basketball stat)));
     goals := JS.or_zero (JS.Fin (Stat.Soccer.goals (Stat.soccer stat)));
     passAccuracy := JS.or_zero (Stat.passAccuracy stat) |}.

(** The analytics of [GET /api/stats/analytics/performance] for the Stat
    documents found; [sport] is the query parameter, when given. *)
Definition performance (stats : list Stat.t) (sport : option string)
    : Analytics :=
  let trendData := map trend stats in
  if decide (sport = Some "basketball") then
    {| totalGames := Some (Reports.length_of stats);
       averagePoints := Some (average_or_zero
         (fun stat => JS.or_zero
            (JS.Fin (Stat.Basketball.points (Stat.basketball stat)))) stats);
       averageRebounds := Some (average_or_zero
         (fun stat => JS.or_zero
            (JS.Fin (Stat.Basketball.rebounds (Stat.basketball stat))))
         stats);
       averageAssists := Some (average_or_zero
         (fun stat => JS.or_zero
            (JS.Fin (Stat.Basketball.assists (Stat.basketball stat)))) stats);
       averageFieldGoalPercentage :=
         Some (average_or_zero Stat.fieldGoalPercentage stats);
       averageThreePointPercentage :=
         Some (average_or_zero Stat.threePointPercentage stats);
       averageFreeThrowPercentage :=
         Some (average_or_zero Stat.freeThrowPercentage stats);
       bestGame := Some (Reports.reduce_bestGame stats);
       totalGoals := None; totalAssists := None;
       averagePassAccuracy := None; averageShots := None;
       trendData := trendData |}
  else if decide (sport = Some "soccer") then
    {| totalGames := Some (Reports.length_of stats);
       averagePoints := None; averageRebounds := None;
       averageAssists := None;
       averageFieldGoalPercentage := None;
       averageThreePointPercentage := None;
       averageFreeThrowPercentage := None;
       bestGame := None;
       totalGoals := Some (Reports.sum
         (fun stat => JS.or_zero
            (JS.Fin (Stat.Soccer.goals (Stat.soccer stat)))) stats);
       totalAssists := Some (Reports.sum
         (fun stat => JS.or_zero
            (JS.Fin (Stat.Soccer.assists (Stat.soccer stat)))) stats);
       averagePassAccuracy :=
         Some (average_or_zero Stat.passAccuracy stats);
       averageShots := Some (average_or_zero
         (fun stat => JS.or_zero
            (JS.Fin (Stat.Soccer.shots (Stat.soccer stat)))) stats);
       trendData := trendData |}
  else
    {| totalGames := None;
       averagePoints := None; averageRebounds := None;
       averageAssists := None;
       averageFieldGoalPercentage := None;
       averageThreePointPercentage := None;
       averageFreeThrowPercentage := None;
       bestGame := None;
       totalGoals := None; totalAssists := None;
       averagePassAccuracy := None; averageShots := None;
       trendData := trendData |}.

End StatsRoute.

(** * The specification's formulas

    Definitions that follow the wording of the specification, over exact
    rationals, for comparison with the code. *)

Module Spec.

Local Open Scope Qc_scope.

Definition min (a b : Qc) : Qc := if decide (a ≤ b) then a else b.
Definition max (a b : Qc) : Qc := if decide (a ≤ b) then b else a.
Definition abs (a : Qc) : Qc := if decide (0 ≤ a) then a else - a.

(** The percentage by direction, before rounding. *)
Definition percentage (direction : Goal.Direction)
    (currentValue targetValue : Qc) : Qc :=
  match direction with
  | Goal.increase =>
      min (Qc_of_Z 100) (currentValue / targetValue * Qc_of_Z 100)
  | Goal.decrease =>
      min (Qc_of_Z 100)
        ((targetValue - currentValue) / targetValue * Qc_of_Z 100)
  | Goal.maintain =>
      max (Qc_of_Z 0)
        (Qc_of_Z 100
         - abs (currentValue - targetValue) / targetValue * Qc_of_Z 100)
  end.

(** [z] is [x] rounded to the nearest integer, a tie going up. *)
Definition rounds_to (x : Qc) (z : Z) : Prop :=
  Qc_of_Z z - Q2Qc (1 # 2) ≤ x ∧ x < Qc_of_Z z + Q2Qc (1 # 2).

(** The code evaluates the formulas in double precision, the
    specification states them over the reals. A computed value is
    compared with its formula up to the rounding of the few operations
    that produce it, for operands whose magnitude keeps the intermediate
    results away from overflow. *)








(** A display ratio: [made / attempted * 100] when the attempt counter is
    positive, [0] otherwise. *)
Definition ratio (made attempted : Qc) : Qc :=
  if decide (0 < attempted) then made / attempted * Qc_of_Z 100 else 0.

(** The team roll-up as the specification words it: the two averages are
    sums over the athletes divided by their number, unconditionally. *)
Definition teamSummarize_unconditional
    (athletes : list Reports.TeamAthlete.t) : gmap string number :=
  {[ "totalGames" :=
       JS.div (Reports.sum Reports.TeamAthlete.totalGames athletes)
         (Reports.length_of athletes);
     "averageGoalProgress" :=
       JS.div
         (Reports.sum
            (fun athlete =>
               JS.ToNumber
                 (Reports.TeamAthlete.averageProgress
                    (Reports.TeamAthlete.goals athlete))) athletes)
         (Reports.length_of athletes) ]}.

(** A counter of a tally object: the property is absent until its key is
    met, and then holds the number of times it was met. *)
Definition count_entry (n : nat) : option number :=
  match n with
  | O => None
  | S _ => Some (JS.int (Z.of_nat n))
  end.

(** The order of [recentProgress]: most recent last update first. *)
Definition newest_first (a b : GoalsRoute.Recent) : Prop :=
  (GoalsRoute.lastUpdate b <= GoalsRoute.lastUpdate a)%Z.


(** [mean] is the mean of the integers [values], rounded to the nearest
    integer, a tie going up: [mean - 1/2 <= total / n < mean + 1/2], cleared
    of the division. *)
Definition rounded_mean (values : list Z) (mean : Z) : Prop :=
  let n := Z.of_nat (length values) in
  let total := foldr Z.add 0%Z values in
  (n * (2 * mean - 1) <= 2 * total)%Z ∧ (2 * total < n * (2 * mean + 1))%Z.

(** A number of the performance route against the same number of the
    reports: the same, with [0] in the place of [NaN]. *)
Definition defaulted (shown computed : option number) : Prop :=
  match computed with
  | Some n => shown = Some (if decide (n = JS.NaN) then JS.int 0 else n)
  | None => shown = None
  end.

(** The sentences of the report summary, word for word, and the summary
    as the specification words it: three independent conditions, each
    guarding its own sentence. *)
Section SummarySentences.

Variable Number_toString : number -> string.
Variable toFixed1 : number -> string.

Definition games_played (games : string) : string :=
  "Played " +:+ games +:+ " games in the reporting period.".

Definition basketball_averages (points rebounds assists : string) : string :=
  "Averaged " +:+ points +:+ " points, " +:+ rebounds
  +:+ " rebounds, and " +:+ assists +:+ " assists per game.".

Definition soccer_totals (goals assists : string) : string :=
  "Scored " +:+ goals +:+ " goals and provided " +:+ assists
  +:+ " assists.".

Definition goals_in_progress (active average : string) : string :=
  "Working on " +:+ active +:+ " active goals with " +:+ average
  +:+ "% average progress.".

Definition goals_completed (completed : string) : string :=
  "Successfully completed " +:+ completed +:+ " goals.".

(** A property of the roll-up, as text. *)
Definition shown (v : option number) : string :=
  match v with
  | Some n => Number_toString n
  | None => "undefined"
  end.

(** An average to one decimal, [0] when it is missing. *)
Definition one_decimal (v : option number) : string :=
  match v with
  | Some n =>
      if decide (toFixed1 n = "") then Number_toString (JS.int 0)
      else toFixed1 n
  | None => Number_toString (JS.int 0)
  end.

Definition stat_sentences (analytics : Reports.Analytics) (sport : string)
    : list string :=
  if JS.gt (Reports.totalGames analytics) (JS.int 0) then
    games_played (Number_toString (Reports.totalGames analytics))
    :: (if decide (sport = "basketball") then
          [basketball_averages
             (one_decimal (Reports.averagePoints analytics))
             (one_decimal (Reports.averageRebounds analytics))
             (one_decimal (Reports.averageAssists analytics))]
        else if decide (sport = "soccer") then
          [soccer_totals
             (Number_toString
                (JS.opt_or_zero (Reports.totalGoals analytics)))
             (Number_toString
                (JS.opt_or_zero (Reports.totalAssists analytics)))]
        else [])
  else [].

Definition summary_sentences (analytics : Reports.Analytics)
    (goalProgress : gmap string number) (sport : string) : list string :=
  stat_sentences analytics sport
  ++ (if JS.gt (JS.ToNumber (goalProgress !! "totalGoals")) (JS.int 0)
      then [goals_in_progress (shown (goalProgress !! "activeGoals"))
              (shown (goalProgress !! "averageProgress"))]
      else [])
  ++ (if JS.gt (JS.ToNumber (goalProgress !! "completedGoals")) (JS.int 0)
      then [goals_completed (shown (goalProgress !! "completedGoals"))]
      else []).

End SummarySentences.

End Spec.

(** * Sample documents *)

Module Samples.

(** A goal with the given direction, target value and status, due at
    instant [due]; the current value starts at [0] and the log is empty. *)
Definition goal (direction : Goal.Direction) (targetValue : Z)
    (status : Goal.Status) (due : Date) : Goal.t :=
  {| Goal.athlete := "athlete-1"; Goal.title := "Season goal";
     Goal.description := None; Goal.category := "performance";
     Goal.sport := "basketball";
     Goal.targetMetric :=
       {| Goal.name := "metric"; Goal.currentValue := Qc_of_Z 0;
          Goal.targetValue := Qc_of_Z targetValue; Goal.unit := "units";
          Goal.direction := direction |};
     Goal.startDate := 0; Goal.targetDate := due;
     Goal.status := status; Goal.priority := "medium";
     Goal.progress :=
       {| Goal.percentage := JS.int 0; Goal.milestones := [];
          Goal.updates := [] |};
     Goal.createdBy := "user-1"; Goal.canEdit := ["user-1"];
     Goal.canView := [];
     Goal.reminders :=
       {| Goal.Reminders.enabled := true;
          Goal.Reminders.frequency := "weekly";
          Goal.Reminders.lastReminder := None;
          Goal.Reminders.nextReminder := None |};
     Goal.tags := []; Goal.completedAt := None;
     Goal.completionNotes := None; Goal.coachFeedback := [] |}.

(** A clock whose successive readings are [t], [t + 1], [t + 2], ... *)
Definition clock_from (t : Date) : Clock := fun n => t + Z.of_nat n.

Definition no_basketball : Stat.Basketball.t :=
  {| Stat.Basketball.points := 0%Qc;
     Stat.Basketball.fieldGoalsMade := 0%Qc;
     Stat.Basketball.fieldGoalsAttempted := 0%Qc;
     Stat.Basketball.threePointersMade := 0%Qc;
     Stat.Basketball.threePointersAttempted := 0%Qc;
     Stat.Basketball.freeThrowsMade := 0%Qc;
     Stat.Basketball.freeThrowsAttempted := 0%Qc;
     Stat.Basketball.rebounds := 0%Qc;
     Stat.Basketball.offensiveRebounds := 0%Qc;
     Stat.Basketball.defensiveRebounds := 0%Qc;
     Stat.Basketball.assists := 0%Qc;
     Stat.Basketball.steals := 0%Qc;
     Stat.Basketball.blocks := 0%Qc;
     Stat.Basketball.turnovers := 0%Qc;
     Stat.Basketball.personalFouls := 0%Qc |}.

Definition no_soccer : Stat.Soccer.t :=
  {| Stat.Soccer.goals := 0%Qc; Stat.Soccer.assists := 0%Qc;
     Stat.Soccer.shots := 0%Qc; Stat.Soccer.shotsOnGoal := 0%Qc;
     Stat.Soccer.passes := 0%Qc; Stat.Soccer.passesCompleted := 0%Qc;
     Stat.Soccer.tackles := 0%Qc; Stat.Soccer.interceptions := 0%Qc;
     Stat.Soccer.fouls := 0%Qc; Stat.Soccer.yellowCards := 0%Qc;
     Stat.Soccer.redCards := 0%Qc |}.

Definition no_football : Stat.Football.t :=
  {| Stat.Football.passingYards := 0%Qc;
     Stat.Football.passingAttempts := 0%Qc;
     Stat.Football.passingCompletions := 0%Qc;
     Stat.Football.passingTouchdowns := 0%Qc;
     Stat.Football.interceptions := 0%Qc;
     Stat.Football.rushingYards := 0%Qc;
     Stat.Football.rushingAttempts := 0%Qc;
     Stat.Football.rushingTouchdowns := 0%Qc;
     Stat.Football.receivingYards := 0%Qc;
     Stat.Football.receptions := 0%Qc;
     Stat.Football.receivingTouchdowns := 0%Qc;
     Stat.Football.tackles := 0%Qc; Stat.Football.sacks := 0%Qc;
     Stat.Football.forcedFumbles := 0%Qc |}.

(** A basketball game with the given points and field goals; every other
    counter has the schema default [0]. *)
Definition basketball_game (day : Date) (points made attempted : Z)
    : Stat.t :=
  {| Stat.athlete := "athlete-1"; Stat.gameDate := day;
     Stat.sport := "basketball"; Stat.gameType := "game";
     Stat.opponent := None; Stat.teamScore := None;
     Stat.opponentScore := None; Stat.minutesPlayed := None;
     Stat.basketball :=
       {| Stat.Basketball.points := Qc_of_Z points;
          Stat.Basketball.fieldGoalsMade := Qc_of_Z made;
          Stat.Basketball.fieldGoalsAttempted := Qc_of_Z attempted;
          Stat.Basketball.threePointersMade := 0%Qc;
          Stat.Basketball.threePointersAttempted := 0%Qc;
          Stat.Basketball.freeThrowsMade := 0%Qc;
          Stat.Basketball.freeThrowsAttempted := 0%Qc;
          Stat.Basketball.rebounds := 0%Qc;
          Stat.Basketball.offensiveRebounds := 0%Qc;
          Stat.Basketball.defensiveRebounds := 0%Qc;
          Stat.Basketball.assists := 0%Qc;
          Stat.Basketball.steals := 0%Qc;
          Stat.Basketball.blocks := 0%Qc;
          Stat.Basketball.turnovers := 0%Qc;
          Stat.Basketball.personalFouls := 0%Qc |};
     Stat.soccer := no_soccer; Stat.football := no_football;
     Stat.notes := None; Stat.verified := false;
     Stat.verifiedBy := None; Stat.verifiedAt := None |}.

(** An athlete of a team, with the given records and goals. *)
Definition member (sport : string) (stats : list Stat.t)
    (goals : list Goal.t) : Reports.Member.t :=
  {| Reports.Member.name := "Sam Lee"; Reports.Member.position := None;
     Reports.Member.sport := sport; Reports.Member.stats := stats;
     Reports.Member.goals := goals |}.

(** The two games of the specification's example scenario. *)
Definition game_A : Stat.t := basketball_game 1 20 8 16.
Definition game_B : Stat.t := basketball_game 2 30 10 20.

End Samples.

(** * Properties *)

(** Linear arithmetic over canonical rationals, through plain rationals. *)
Ltac qc_lra :=
  unfold Qcle, Qclt in *;
  cbn [this Qcplus Qcmult Qcopp Qcminus Q2Qc Qc_of_Z] in *;
  rewrite ?Qred_correct in *;
  cbv [inject_Z] in *;
  lra.

(** ** Numbers *)

Section NumberFacts.

Local Open Scope Qc_scope.

Lemma half_plus_half : Q2Qc (1 # 2) + Q2Qc (1 # 2) = 1.
Proof. apply Qc_is_canon. reflexivity. Qed.

(** [Math.round] on a finite value is the nearest integer, a tie going
    up. *)
Lemma round_half_up_rounds (q : Qc) : Spec.rounds_to q (JS.round_half_up q).
Proof.
  unfold Spec.rounds_to, JS.round_half_up.
  set (h := Q2Qc (1 # 2)). set (w := q + h). set (z := Qfloor w).
  assert (Hlo : Qc_of_Z z ≤ w) by exact (Qfloor_le w).
  assert (Hhi : w < Qc_of_Z (z + 1)) by exact (Qlt_floor w).
  split.
  - apply (Qcplus_le_mono_r _ _ h).
    replace (Qc_of_Z z - h + h) with (Qc_of_Z z) by ring. exact Hlo.
  - apply (Qcplus_lt_mono_r _ _ h).
    replace (Qc_of_Z z + h + h) with (Qc_of_Z (z + 1)); [exact Hhi|].
    rewrite Z2Qc_inj_add, <- Qcplus_assoc. unfold h.
    rewrite half_plus_half. reflexivity.
Qed.

Lemma Math_min_Fin (a b : Qc) :
  JS.Math_min (JS.Fin a) (JS.Fin b) = JS.Fin (Spec.min a b).
Proof.
  unfold JS.Math_min, JS.lt, Spec.min.
  case_bool_decide as Hlt; case_decide as Hle; try reflexivity.
  - apply Qclt_nge in Hlt. contradiction.
  - apply Qcle_ngt in Hlt. contradiction.
Qed.

Lemma Math_max_Fin (a b : Qc) :
  JS.Math_max (JS.Fin a) (JS.Fin b) = JS.Fin (Spec.max a b).
Proof.
  unfold JS.Math_max, JS.lt, Spec.max.
  case_bool_decide as Hlt; case_decide as Hle; try reflexivity.
  - exfalso. apply Hle, Qclt_le_weak, Hlt.
  - apply Qcle_ngt in Hlt. f_equal. apply Qcle_antisym; assumption.
Qed.

Lemma Math_abs_Fin (a : Qc) : JS.Math_abs (JS.Fin a) = JS.Fin (Spec.abs a).
Proof.
  unfold JS.Math_abs, Spec.abs.
  case_bool_decide as Hlt; case_decide as Hle; try reflexivity.
  - exfalso. eapply Qclt_not_le; eassumption.
  - exfalso. apply Hle, Qcnot_lt_le, Hlt.
Qed.

Lemma div_Fin (a b : Qc) :
  b <> 0 -> JS.div (JS.Fin a) (JS.Fin b) = JS.Fin (a / b).
Proof. intros Hb. unfold JS.div. case_decide; [contradiction|reflexivity]. Qed.

Lemma round_half_up_mono (a b : Qc) :
  a ≤ b -> (JS.round_half_up a <= JS.round_half_up b)%Z.
Proof.
  intros Hab. unfold JS.round_half_up. apply Qfloor_resp_le.
  change (a + Q2Qc (1 # 2) ≤ b + Q2Qc (1 # 2)).
  apply Qcplus_le_mono_r. exact Hab.
Qed.

Lemma pos_nonzero (t : Qc) : 0 < t -> t <> 0.
Proof. intros Ht ->. exact (Qclt_not_eq _ _ Ht eq_refl). Qed.

Lemma abs_nonneg (a : Qc) : 0 ≤ Spec.abs a.
Proof. unfold Spec.abs. case_decide; qc_lra. Qed.




Lemma min_le_l (a b : Qc) : Spec.min a b ≤ a.
Proof.
  unfold Spec.min. case_decide as H; [apply Qcle_refl|].
  apply Qclt_le_weak, Qcnot_le_lt, H.
Qed.

Lemma max_ge_l (a b : Qc) : a ≤ Spec.max a b.
Proof. unfold Spec.max. case_decide as H; [exact H|apply Qcle_refl]. Qed.

End NumberFacts.

(** ** Integers as JavaScript numbers *)

Section IntegerFacts.

Lemma add_int (a b : Z) : JS.add (JS.int a) (JS.int b) = JS.int (a + b).
Proof. unfold JS.int. cbn [JS.add]. rewrite Z2Qc_inj_add. reflexivity. Qed.

Lemma sub_int (a b : Z) : JS.sub (JS.int a) (JS.int b) = JS.int (a - b).
Proof.
  unfold JS.int, JS.sub. cbn [JS.neg JS.add]. rewrite Z2Qc_inj_sub.
  reflexivity.
Qed.

Lemma mul_int (a b : Z) : JS.mul (JS.int a) (JS.int b) = JS.int (a * b).
Proof. unfold JS.int. cbn [JS.mul]. rewrite Z2Qc_inj_mul. reflexivity. Qed.

Lemma lt_int (a b : Z) : JS.lt (JS.int a) (JS.int b) = bool_decide (a < b).
Proof.
  unfold JS.lt, JS.int. apply bool_decide_ext. symmetry. apply Z2Qc_inj_lt.
Qed.

Lemma le_int (a b : Z) : JS.le (JS.int a) (JS.int b) = bool_decide (a <= b).
Proof.
  unfold JS.le, JS.int. apply bool_decide_ext. symmetry. apply Z2Qc_inj_le.
Qed.

Lemma Math_max_int (a b : Z) :
  JS.Math_max (JS.int a) (JS.int b) = JS.int (Z.max a b).
Proof.
  unfold JS.Math_max. change (JS.int a) with (JS.Fin (Qc_of_Z a)) at 1.
  change (JS.int b) with (JS.Fin (Qc_of_Z b)) at 1.
  cbv beta iota. rewrite lt_int. case_bool_decide; f_equal; lia.
Qed.

Lemma Qc_of_Z_nonzero (m : Z) : m <> 0 -> Qc_of_Z m <> 0%Qc.
Proof. intros Hm H. rewrite <- Z2Qc_inj_0 in H. apply Z2Qc_inj in H. lia. Qed.

(** The ceiling of a quotient of integers is an integer quotient. *)
Lemma ceil_div_int (a m : Z) :
  m <> 0 ->
  JS.Math_ceil (JS.div (JS.int a) (JS.int m)) = JS.int (- ((- a) / m)).
Proof.
  intros Hm. unfold JS.int at 1 2. rewrite div_Fin by (apply Qc_of_Z_nonzero, Hm).
  cbn [JS.Math_ceil]. f_equal. unfold Qceiling. f_equal.
  rewrite Zdiv_Qdiv. apply Qfloor_comp.
  cbn [Qcdiv Qcmult Qcinv Q2Qc this Qc_of_Z].
  rewrite !Qred_correct, inject_Z_opp. unfold Qdiv. ring.
Qed.

End IntegerFacts.

(** ** Goal progress *)

(** Case analysis on the condition of a conditional in the goal. *)
Ltac split_if :=
  match goal with
  | |- context [if ?c then _ else _] => destruct c eqn:?
  end.

Section GoalFacts.

Import Goal.

(** With a non-zero target the unrounded percentage is finite and is the
    specification's formula. *)
Lemma raw_percentage_Fin (m : TargetMetric) :
  targetValue m <> 0%Qc ->
  raw_percentage m
  = JS.Fin (Spec.percentage (direction m) (currentValue m) (targetValue m)).
Proof.
  intros Ht. unfold raw_percentage, Spec.percentage.
  destruct (direction m); unfold JS.sub; cbn [JS.neg JS.add].
  - rewrite div_Fin by assumption. cbn [JS.mul JS.int]. apply Math_min_Fin.
  - rewrite div_Fin by assumption. cbn [JS.mul JS.int]. apply Math_min_Fin.
  - rewrite Math_abs_Fin, div_Fin by assumption.
    cbn [JS.mul JS.int JS.neg JS.add]. apply Math_max_Fin.
Qed.

(** The document once the new value and the percentage are assigned. *)
Lemma assign_percentage_paths (p : number) (g : Goal.t) :
  targetMetric (assign_percentage p g) = targetMetric g
  /\ status (assign_percentage p g) = status g
  /\ targetDate (assign_percentage p g) = targetDate g
  /\ completedAt (assign_percentage p g) = completedAt g
  /\ updates (progress (assign_percentage p g)) = updates (progress g)
  /\ milestones (progress (assign_percentage p g)) = milestones (progress g).
Proof. destruct p; repeat split; reflexivity. Qed.

(** The document left by [updateProgress], in closed form: [u] is the log
    entry, stamped with the first clock reading; completion is stamped with
    the second reading; the overdue check of a goal that did not complete
    compares the due date with the second reading. *)
Lemma updateProgress_closed_form newValue notes updatedBy this clk :
  let stored :=
    assign_percentage
      (JS.Math_round
         (raw_percentage (targetMetric (set_currentValue newValue this))))
      (set_currentValue newValue this) in
  let u :=
    {| date := clk 0%nat; value := newValue; notes := notes;
       updatedBy := updatedBy |} in
  let logged := push_update u stored in
  (updateProgress newValue notes updatedBy this clk).1
  = if JS.ge (percentage (progress stored)) (JS.int 100)
       && bool_decide (status this = active)
    then set_completedAt (clk 1%nat) (set_status completed logged)
    else if bool_decide (targetDate this < clk 1%nat)
            && bool_decide (status this = active)
         then set_status overdue logged
         else logged.
Proof.
  intros stored u logged.
  assert (Hstatus : status stored = status this)
    by exact (proj1 (proj2 (assign_percentage_paths _ _))).
  assert (Hdate : targetDate stored = targetDate this)
    by exact (proj1 (proj2 (proj2 (assign_percentage_paths _ _)))).
  unfold updateProgress, new_Date.
  cbv beta iota zeta. fold stored. fold u. fold logged.
  change (percentage (progress logged)) with (percentage (progress stored)).
  change (status logged) with (status stored). rewrite Hstatus.
  destruct (JS.ge (percentage (progress stored)) (JS.int 100)
            && bool_decide (status this = active));
    cbv beta iota zeta; cbn [fst].
  - change (status (set_completedAt _ _)) with completed.
    rewrite (bool_decide_eq_false_2 (completed = active))
      by (intros ?; discriminate).
    rewrite andb_false_r. reflexivity.
  - change (targetDate logged) with (targetDate stored).
    change (status logged) with (status stored).
    rewrite Hstatus, Hdate. reflexivity.
Qed.

Lemma updateProgress_percentage_eq newValue notes updatedBy this clk :
  percentage (progress (updateProgress newValue notes updatedBy this clk).1)
  = percentage
      (progress
         (assign_percentage
            (JS.Math_round
               (raw_percentage
                  (targetMetric (set_currentValue newValue this))))
            (set_currentValue newValue this))).
Proof.
  rewrite updateProgress_closed_form. cbv zeta.
  repeat split_if; reflexivity.
Qed.

Lemma updateProgress_targetMetric newValue notes updatedBy this clk :
  targetMetric (updateProgress newValue notes updatedBy this clk).1
  = targetMetric (set_currentValue newValue this).
Proof.
  rewrite updateProgress_closed_form. cbv zeta.
  repeat split_if;
    cbn [targetMetric set_completedAt set_status push_update set_progress];
    apply assign_percentage_paths.
Qed.

(** With a non-zero target the computed percentage is a number, which is
    stored: the rounded value of the specification's formula. *)
Lemma updateProgress_percentage_spec newValue notes updatedBy this clk :
  targetValue (targetMetric this) <> 0%Qc ->
  percentage (progress (updateProgress newValue notes updatedBy this clk).1)
  = JS.int
      (JS.round_half_up
         (Spec.percentage (direction (targetMetric this)) newValue
            (targetValue (targetMetric this)))).
Proof.
  intros Ht.
  rewrite updateProgress_percentage_eq, raw_percentage_Fin by exact Ht.
  reflexivity.
Qed.

(** The status and the completion instant after [updateProgress], by the
    percentage it leaves in the document. *)
Lemma updateProgress_status_eq newValue notes updatedBy this clk :
  status (updateProgress newValue notes updatedBy this clk).1
  = if bool_decide (status this = active) then
      if JS.ge
           (percentage
              (progress (updateProgress newValue notes updatedBy this clk).1))
           (JS.int 100)
      then completed
      else if bool_decide (targetDate this < clk 1%nat) then overdue
           else active
    else status this.
Proof.
  rewrite updateProgress_percentage_eq, updateProgress_closed_form.
  cbv zeta.
  destruct (decide (status this = active)) as [Hs|Hs];
    [rewrite !(bool_decide_eq_true_2 _ Hs)
    |rewrite !(bool_decide_eq_false_2 _ Hs)];
    destruct (JS.ge _ (JS.int 100));
    destruct (bool_decide (targetDate this < clk 1%nat));
    cbn [andb status set_status set_completedAt push_update set_progress];
    rewrite ?(proj1 (proj2 (assign_percentage_paths _ _)));
    cbn [status set_currentValue]; rewrite ?Hs; reflexivity.
Qed.

Lemma updateProgress_completedAt_eq newValue notes updatedBy this clk :
  completedAt (updateProgress newValue notes updatedBy this clk).1
  = if bool_decide (status this = active)
       && JS.ge
            (percentage
               (progress (updateProgress newValue notes updatedBy this clk).1))
            (JS.int 100)
    then Some (clk 1%nat)
    else completedAt this.
Proof.
  rewrite updateProgress_percentage_eq, updateProgress_closed_form.
  cbv zeta. rewrite (andb_comm (bool_decide (status this = active))).
  repeat split_if;
    cbn [completedAt set_status set_completedAt push_update set_progress];
    rewrite ?(proj1 (proj2 (proj2 (proj2 (assign_percentage_paths _ _)))));
    reflexivity.
Qed.

Lemma updateProgress_updates_eq newValue notes updatedBy this clk :
  updates (progress (updateProgress newValue notes updatedBy this clk).1)
  = updates (progress this)
    ++ [ {| date := clk 0%nat; value := newValue; notes := notes;
            updatedBy := updatedBy |} ].
Proof.
  rewrite updateProgress_closed_form. cbv zeta.
  repeat split_if;
    cbn [updates progress set_status set_completedAt push_update
         set_progress];
    rewrite (proj1 (proj2 (proj2 (proj2 (proj2
               (assign_percentage_paths _ _))))));
    reflexivity.
Qed.


(** C3. The status after [updateProgress]: an active goal whose new
    percentage is at least 100 becomes completed and records the completion
    instant, whatever its due date; an active goal that did not reach 100
    becomes overdue exactly when the clock read at the check is past the
    due date; a goal that was not active keeps its status and its
    completion instant. *)
Theorem updateProgress_status_transition
    (this : Goal.t) (newValue : Qc) (notes : option string)
    (updatedBy : ObjectId) (clk : Clock) :
  let this' := (updateProgress newValue notes updatedBy this clk).1 in
  let reached := JS.ge (percentage (progress this')) (JS.int 100) in
  status this'
  = (if bool_decide (status this = active) then
       if reached then completed
       else if bool_decide (targetDate this < clk 1%nat) then overdue
            else active
     else status this)
  /\ completedAt this'
     = (if bool_decide (status this = active) && reached
        then Some (clk 1%nat)
        else completedAt this).
Proof.
  intros this' reached. subst reached this'.
  rewrite updateProgress_status_eq, updateProgress_completedAt_eq.
  destruct (bool_decide (status this = active)); [|split; reflexivity].
  destruct (JS.ge _ (JS.int 100)); split; reflexivity.
Qed.

(** C4. [updateProgress] appends exactly one entry, made of the first
    clock reading, the new value, the notes and the updater, at the end of
    [progress.updates]; the entries already there are kept as they were, in
    the same order. *)
Theorem updateProgress_appends_update
    (this : Goal.t) (newValue : Qc) (notes : option string)
    (updatedBy : ObjectId) (clk : Clock) :
  updates (progress (updateProgress newValue notes updatedBy this clk).1)
  = updates (progress this)
    ++ [ {| date := clk 0%nat; value := newValue; notes := notes;
            updatedBy := updatedBy |} ].
Proof.
  rewrite updateProgress_closed_form. cbv zeta.
  destruct (JS.Math_round _); repeat split_if; reflexivity.
Qed.

End GoalFacts.


(** The example scenario of the specification: a goal with target 50 and
    direction increase, updated to 25, is at 50 percent and stays active. *)
Example updateProgress_halfway :
  let this' :=
    (Goal.updateProgress (Qc_of_Z 25) None "user-1"
       (Samples.goal Goal.increase 50 Goal.active 1000)
       (Samples.clock_from 0)).1 in
  Goal.percentage (Goal.progress this') = JS.int 50
  /\ Goal.status this' = Goal.active.
Proof. cbv zeta. compute_done. Qed.

(** An increase goal updated to its target value is at 100 percent and
    completed, also when the update comes after the due date. *)
Example updateProgress_completed_past_due :
  let this' :=
    (Goal.updateProgress (Qc_of_Z 50) None "user-1"
       (Samples.goal Goal.increase 50 Goal.active 1000)
       (Samples.clock_from 5000)).1 in
  Goal.percentage (Goal.progress this') = JS.int 100
  /\ Goal.status this' = Goal.completed
  /\ Goal.completedAt this' = Some 5001.
Proof. cbv zeta. compute_done. Qed.

(** An active goal updated short of its target after the due date is
    overdue. *)
Example updateProgress_overdue :
  Goal.status
    (Goal.updateProgress (Qc_of_Z 10) None "user-1"
       (Samples.goal Goal.increase 50 Goal.active 1000)
       (Samples.clock_from 5000)).1
  = Goal.overdue.
Proof. compute_done. Qed.

(** With a zero target nothing guards the division: a positive value
    divided by it is [Infinity], clamped to 100, and the goal completes;
    [0 / 0] is [NaN], which the path refuses, so that the percentage stays
    what it was. *)
Example updateProgress_zero_target :
  let by_zero :=
    (Goal.updateProgress (Qc_of_Z 5) None "user-1"
       (Samples.goal Goal.increase 0 Goal.active 1000)
       (Samples.clock_from 0)).1 in
  let zero_by_zero :=
    (Goal.updateProgress (Qc_of_Z 0) None "user-1" by_zero
       (Samples.clock_from 10)).1 in
  Goal.percentage (Goal.progress by_zero) = JS.int 100
  /\ Goal.status by_zero = Goal.completed
  /\ Goal.currentValue (Goal.targetMetric zero_by_zero) = Qc_of_Z 0
  /\ Goal.percentage (Goal.progress zero_by_zero) = JS.int 100.
Proof. cbv zeta. compute_done. Qed.

(** C2. The percentage is not confined to the range from 0 to 100: a
    decrease goal with target 50 updated to 1000 is left at -1900, and an
    increase goal with target 50 updated to -50 is left at -100; both
    values fail the range that the schema declares for the path. *)
Theorem updateProgress_percentage_escapes_range :
  let far_above :=
    (Goal.updateProgress (Qc_of_Z 1000) None "user-1"
       (Samples.goal Goal.decrease 50 Goal.active 1000)
       (Samples.clock_from 0)).1 in
  let negative :=
    (Goal.updateProgress (Qc_of_Z (-50)) None "user-1"
       (Samples.goal Goal.increase 50 Goal.active 1000)
       (Samples.clock_from 0)).1 in
  Goal.percentage (Goal.progress far_above) = JS.int (-1900)
  /\ Goal.percentage (Goal.progress negative) = JS.int (-100)
  /\ Goal.percentage_in_schema_range
       (Goal.percentage (Goal.progress far_above)) = false
  /\ Goal.percentage_in_schema_range
       (Goal.percentage (Goal.progress negative)) = false.
Proof. cbv zeta. compute_done. Qed.

(** ** Derived percentages of a Stat document *)

Section StatFacts.

Local Open Scope Qc_scope.

(** The shape shared by the percentage virtuals, against [Spec.ratio]. *)
Lemma guarded_ratio_Fin (made attempted : Qc) :
  (if JS.gt (JS.Fin attempted) (JS.int 0)
   then JS.mul (JS.div (JS.Fin made) (JS.Fin attempted)) (JS.int 100)
   else JS.int 0)
  = JS.Fin (Spec.ratio made attempted).
Proof.
  unfold JS.gt, JS.lt, JS.int, Spec.ratio. rewrite Z2Qc_inj_0.
  case_bool_decide as Hpos; case_decide; try contradiction.
  - rewrite div_Fin; [reflexivity|].
    intros ->. exact (Qclt_not_eq _ _ Hpos eq_refl).
  - reflexivity.
Qed.



End StatFacts.


(** A record with no attempt contributes [0] to the averaged field-goal
    percentage. *)
Example fieldGoalPercentage_no_attempt :
  Stat.fieldGoalPercentage (Samples.basketball_game 1 12 0 0) = JS.int 0.
Proof. compute_done. Qed.

(** ** Analytics over a list of Stat documents *)

Section AnalyticsFacts.

Import Reports.

(** C7. On an empty list [calculateAnalytics] returns the object
    [{ totalGames: 0 }], whatever the sport: no other property is present,
    and the one number in it is finite, so no quotient by the zero length
    was formed. *)
Theorem calculateAnalytics_empty (sport : string) :
  calculateAnalytics [] sport
  = {| totalGames := JS.int 0;
       averagePoints := None; averageRebounds := None;
       averageAssists := None;
       averageFieldGoalPercentage := None;
       averageThreePointPercentage := None;
       averageFreeThrowPercentage := None;
       bestGame := None;
       totalGoals := None; totalAssists := None;
       averagePassAccuracy := None; averageShots := None |}
  /\ JS.is_finite (totalGames (calculateAnalytics [] sport)).
Proof. split; [reflexivity|exact I]. Qed.

Lemma div_length_finite {A} (a : number) (x : A) (xs : list A) :
  JS.is_finite a -> JS.is_finite (JS.div a (length_of (x :: xs))).
Proof.
  intros Ha. destruct a as [q| | |]; try contradiction.
  unfold length_of, JS.int. rewrite div_Fin; [exact I|].
  rewrite <- Z2Qc_inj_0. intros H. apply Z2Qc_inj in H.
  cbn [length] in H. lia.
Qed.

Lemma calculateAnalytics_totalGames (stats : list Stat.t) (sport : string) :
  totalGames (calculateAnalytics stats sport) = length_of stats.
Proof.
  unfold calculateAnalytics. destruct stats; [reflexivity|].
  rewrite decide_False by discriminate. repeat case_decide; reflexivity.
Qed.

(** The comparison [stat.basketball.points > best.points] is false for
    every document and every accumulator: [best.points] is [undefined]. *)
Lemma bestGame_comparison_false (best : Best) (stat : Stat.t) :
  JS.gt (JS.Fin (Stat.Basketball.points (Stat.basketball stat)))
    (JS.ToNumber (Best_points best)) = false.
Proof. destruct best; reflexivity. Qed.

(** The reduction returns its seed on every list. *)
Lemma reduce_bestGame_is_seed (stats : list Stat.t) :
  reduce_bestGame stats = Seed.
Proof.
  unfold reduce_bestGame. generalize Seed as best.
  induction stats as [|stat stats IH]; intros best; [reflexivity|].
  cbn [foldl]. rewrite bestGame_comparison_false. apply IH.
Qed.

(** C8. On the two games of the example scenario, with 20 and 30 points,
    [bestGame] is the seed literal and not the game with 30 points: its
    [points] property is [undefined] and its [basketball.points] is [0].
    The averages of the scenario are as expected: 25 points and 50 percent
    field goals. *)
Theorem bestGame_of_example_is_seed :
  let analytics :=
    calculateAnalytics [Samples.game_A; Samples.game_B] "basketball" in
  bestGame analytics = Some Seed
  /\ bestGame analytics <> Some (Doc Samples.game_B)
  /\ Best_points Seed = None
  /\ Best_basketball_points Seed = JS.int 0
  /\ averagePoints analytics = Some (JS.int 25)
  /\ averageFieldGoalPercentage analytics = Some (JS.int 50).
Proof.
  cbv zeta. split; [reflexivity|]. split; [discriminate|].
  split; [reflexivity|]. split; [reflexivity|]. split; compute_done.
Qed.

End AnalyticsFacts.

(** ** Goal roll-up, team averages and summary *)

Section RollupFacts.

Import Reports.

Lemma length_of_cons_positive {A} (x : A) (xs : list A) :
  exists n : Z, length_of (x :: xs) = JS.int n /\ 0 < n.
Proof.
  exists (Z.of_nat (length (x :: xs))). split; [reflexivity|].
  cbn [length]. lia.
Qed.

Lemma gt_int_0 (n : Z) : JS.gt (JS.int n) (JS.int 0) = bool_decide (0 < n).
Proof.
  unfold JS.gt, JS.lt, JS.int. apply bool_decide_ext.
  symmetry. apply Z2Qc_inj_lt.
Qed.

Lemma gt_length_of_0 {A} (xs : list A) :
  JS.gt (length_of xs) (JS.int 0) = bool_decide (xs <> []).
Proof.
  unfold length_of. rewrite gt_int_0. apply bool_decide_ext.
  destruct xs; cbn [length]; split; intros H; try lia; try discriminate.
  contradiction.
Qed.

(** The team averages differ from the unconditional roll-up on the empty
    list: the code returns the empty object, the unconditional quotient
    [0 / 0] is [NaN]. *)
Lemma calculateTeamAverages_empty_not_unconditional :
  calculateTeamAverages [] "basketball" !! "totalGames" = None
  /\ Spec.teamSummarize_unconditional [] !! "totalGames" = Some JS.NaN
  /\ calculateTeamAverages [] "basketball"
     <> Spec.teamSummarize_unconditional [].
Proof.
  split; [reflexivity|]. split; [reflexivity|].
  intros H. apply (f_equal (fun m => m !! "totalGames")) in H.
  discriminate H.
Qed.

(** C5, amended. [calculateTeamAverages] returns the empty object for an
    empty athlete list, for every sport; for a non-empty list, [totalGames]
    and [averageGoalProgress] are the sums over the athletes divided by the
    number of athletes, which is then a positive integer. *)
Theorem calculateTeamAverages_guarded (sport : string) :
  calculateTeamAverages [] sport = ∅
  /\ forall (athlete : TeamAthlete.t) (rest : list TeamAthlete.t),
       let athletes := athlete :: rest in
       calculateTeamAverages athletes sport !! "totalGames"
       = Some (JS.div (sum TeamAthlete.totalGames athletes)
                 (length_of athletes))
       /\ calculateTeamAverages athletes sport !! "averageGoalProgress"
          = Some (JS.div
                    (sum (fun a =>
                            JS.ToNumber
                              (TeamAthlete.averageProgress
                                 (TeamAthlete.goals a))) athletes)
                    (length_of athletes))
       /\ exists n : Z, length_of athletes = JS.int n /\ 0 < n.
Proof.
  split; [reflexivity|]. intros athlete rest athletes.
  split; [|split; [|apply length_of_cons_positive]].
  - unfold calculateTeamAverages.
    rewrite decide_False by discriminate.
    repeat case_decide; simplify_map_eq; reflexivity.
  - unfold calculateTeamAverages.
    rewrite decide_False by discriminate.
    repeat case_decide; simplify_map_eq; reflexivity.
Qed.

(** A roll-up that counts a completed goal counts a goal. *)
Lemma completedGoals_positive_totalGoals (goals : list Goal.t) :
  JS.gt (JS.ToNumber (calculateGoalProgress goals !! "completedGoals"))
    (JS.int 0) = true ->
  JS.gt (JS.ToNumber (calculateGoalProgress goals !! "totalGoals"))
    (JS.int 0) = true.
Proof.
  destruct goals as [|goal goals]; [intros H; discriminate H|].
  intros _. unfold calculateGoalProgress.
  rewrite decide_False by discriminate. cbv zeta.
  rewrite lookup_insert_eq. cbn [JS.ToNumber default from_option id].
  rewrite gt_length_of_0. apply bool_decide_eq_true_2. discriminate.
Qed.

Section SummaryFacts.

Variable Number_toString : number -> string.
Variable toFixed1 : number -> string.

(** [generateSummary] joins the sentences about the statistics with the
    sentences about the goals; the sentence about completed goals is read
    only inside the branch of the goals sentence. *)
Lemma generateSummary_unfold (analytics : Analytics)
    (goalProgress : gmap string number) (sport : string) :
  generateSummary Number_toString toFixed1 analytics goalProgress sport
  = String.concat " "
      (Spec.stat_sentences Number_toString toFixed1 analytics sport
       ++ (if JS.gt (JS.ToNumber (goalProgress !! "totalGoals")) (JS.int 0)
           then
             Spec.goals_in_progress
               (Spec.shown Number_toString (goalProgress !! "activeGoals"))
               (Spec.shown Number_toString
                  (goalProgress !! "averageProgress"))
             :: (if JS.gt (JS.ToNumber (goalProgress !! "completedGoals"))
                      (JS.int 0)
                 then
                   [Spec.goals_completed
                      (Spec.shown Number_toString
                         (goalProgress !! "completedGoals"))]
                 else [])
           else [])).
Proof.
  unfold generateSummary, Spec.stat_sentences.
  destruct (JS.gt (totalGames analytics) (JS.int 0));
    destruct (JS.gt (JS.ToNumber (goalProgress !! "totalGoals")) (JS.int 0));
    destruct (JS.gt (JS.ToNumber (goalProgress !! "completedGoals"))
                (JS.int 0));
    repeat case_decide; reflexivity.
Qed.

(** The three conditions of the summary, on the documents of the report. *)
Lemma totalGames_positive (stats : list Stat.t) (sport : string) :
  JS.gt (totalGames (calculateAnalytics stats sport)) (JS.int 0) = true
  <-> stats <> [].
Proof.
  rewrite calculateAnalytics_totalGames, gt_length_of_0.
  apply bool_decide_eq_true.
Qed.

Lemma totalGoals_positive (goals : list Goal.t) :
  JS.gt (JS.ToNumber (calculateGoalProgress goals !! "totalGoals"))
    (JS.int 0) = true
  <-> goals <> [].
Proof.
  destruct goals as [|goal goals].
  - split; [intros H; discriminate H|intros H; contradiction].
  - unfold calculateGoalProgress. rewrite decide_False by discriminate.
    cbv zeta. rewrite lookup_insert_eq.
    cbn [JS.ToNumber default from_option id].
    rewrite gt_length_of_0. apply bool_decide_eq_true.
Qed.

Lemma completedGoals_positive (goals : list Goal.t) :
  JS.gt (JS.ToNumber (calculateGoalProgress goals !! "completedGoals"))
    (JS.int 0) = true
  <-> Exists (fun g => Goal.status g = Goal.completed) goals.
Proof.
  destruct goals as [|goal goals].
  - split; [intros H; discriminate H|intros H; inversion H].
  - unfold calculateGoalProgress. rewrite decide_False by discriminate.
    cbv zeta. rewrite !lookup_insert_ne by discriminate.
    rewrite lookup_insert_eq. cbn [JS.ToNumber default from_option id].
    rewrite gt_length_of_0, bool_decide_eq_true.
    set (l := goal :: goals). clearbody l.
    rewrite Exists_exists. split.
    + intros Hne.
      destruct (filter (fun g => Goal.status g = Goal.completed) l)
        as [|g rest] eqn:Hf; [contradiction|].
      assert (Hin : g ∈ filter (fun g => Goal.status g = Goal.completed) l)
        by (rewrite Hf; apply list_elem_of_here).
      apply list_elem_of_filter in Hin as [Hc Hin]. eauto.
    + intros (g & Hin & Hc) Hf.
      assert (Hg : g ∈ filter (fun g => Goal.status g = Goal.completed) l)
        by (apply list_elem_of_filter; auto).
      rewrite Hf in Hg. inversion Hg.
Qed.

(** C9. The summary of the athlete report is its sentences joined by
    single spaces, the sentences being, word for word and in this order:
    the games sentence (followed by the sentence of the sport, for
    basketball and soccer), present exactly when [totalGames > 0], that is
    when the report has a record; the goals sentence, present exactly when
    [totalGoals > 0], that is when the report has a goal; and the
    completed-goals sentence, present exactly when [completedGoals > 0],
    that is when a goal of the report is completed. A sentence whose
    condition fails leaves no text. *)
Theorem report_summary_sentences (stats : list Stat.t)
    (goals : list Goal.t) (sport : string) :
  let analytics := calculateAnalytics stats sport in
  let goalProgress := calculateGoalProgress goals in
  let text := Spec.shown Number_toString in
  let fixed := Spec.one_decimal Number_toString toFixed1 in
  report_summary Number_toString toFixed1 stats goals sport
  = String.concat " "
      ((if JS.gt (totalGames analytics) (JS.int 0) then
          ("Played " +:+ Number_toString (totalGames analytics)
           +:+ " games in the reporting period.")
          :: (if decide (sport = "basketball") then
                ["Averaged " +:+ fixed (averagePoints analytics)
                 +:+ " points, " +:+ fixed (averageRebounds analytics)
                 +:+ " rebounds, and " +:+ fixed (averageAssists analytics)
                 +:+ " assists per game."]
              else if decide (sport = "soccer") then
                ["Scored "
                 +:+ Number_toString (JS.opt_or_zero (totalGoals analytics))
                 +:+ " goals and provided "
                 +:+ Number_toString
                       (JS.opt_or_zero (totalAssists analytics))
                 +:+ " assists."]
              else [])
        else [])
       ++ (if JS.gt (JS.ToNumber (goalProgress !! "totalGoals")) (JS.int 0)
           then
             ["Working on " +:+ text (goalProgress !! "activeGoals")
              +:+ " active goals with "
              +:+ text (goalProgress !! "averageProgress")
              +:+ "% average progress."]
           else [])
       ++ (if JS.gt (JS.ToNumber (goalProgress !! "completedGoals"))
                (JS.int 0)
           then
             ["Successfully completed "
              +:+ text (goalProgress !! "completedGoals") +:+ " goals."]
           else []))
  /\ report_summary Number_toString toFixed1 stats goals sport
     = String.concat " "
         (Spec.summary_sentences Number_toString toFixed1 analytics
            goalProgress sport)
  /\ (JS.gt (totalGames analytics) (JS.int 0) = true <-> stats <> [])
  /\ (JS.gt (JS.ToNumber (goalProgress !! "totalGoals")) (JS.int 0) = true
      <-> goals <> [])
  /\ (JS.gt (JS.ToNumber (goalProgress !! "completedGoals")) (JS.int 0)
      = true
      <-> Exists (fun g => Goal.status g = Goal.completed) goals).
Proof.
  cbv zeta.
  assert (Hsum :
    report_summary Number_toString toFixed1 stats goals sport
    = String.concat " "
        (Spec.summary_sentences Number_toString toFixed1
           (calculateAnalytics stats sport) (calculateGoalProgress goals)
           sport)).
  { unfold report_summary, Spec.summary_sentences.
    rewrite generateSummary_unfold. f_equal. f_equal.
    pose proof (completedGoals_positive_totalGoals goals) as Himp.
    destruct (JS.gt
                (JS.ToNumber (calculateGoalProgress goals !! "totalGoals"))
                (JS.int 0));
      destruct (JS.gt
                  (JS.ToNumber
                     (calculateGoalProgress goals !! "completedGoals"))
                  (JS.int 0));
      try reflexivity.
    discriminate (Himp eq_refl). }
  split; [exact Hsum|]. split; [exact Hsum|].
  split; [apply totalGames_positive|].
  split; [apply totalGoals_positive|apply completedGoals_positive].
Qed.

(** The sum of integers is their integer sum. *)
Lemma foldl_add_int {A} (f : A -> number) (xs : list A) (values : list Z)
    (a : Z) :
  Forall2 (fun x v => f x = JS.int v) xs values ->
  foldl (fun sum x => JS.add sum (f x)) (JS.int a) xs
  = JS.int (a + foldr Z.add 0 values).
Proof.
  intros H. revert a. induction H as [|x v xs values Hx _ IH]; intros a.
  - cbn [foldl foldr]. rewrite Z.add_0_r. reflexivity.
  - cbn [foldl foldr]. rewrite Hx, add_int, IH. f_equal. lia.
Qed.

(** The rounded quotient of two integers. *)
Lemma round_half_up_quotient (total n : Z) :
  0 < n ->
  let mean := JS.round_half_up (Qc_of_Z total / Qc_of_Z n) in
  n * (2 * mean - 1) <= 2 * total /\ 2 * total < n * (2 * mean + 1).
Proof.
  intros Hn mean.
  pose proof (round_half_up_rounds (Qc_of_Z total / Qc_of_Z n)) as [Hlo Hhi].
  fold mean in Hlo, Hhi.
  assert (Hq : (0 < Qc_of_Z n)%Qc).
  { rewrite <- Z2Qc_inj_0. apply (proj1 (Z2Qc_inj_lt 0 n)). exact Hn. }
  assert (Hne : Qc_of_Z n <> 0%Qc) by (apply pos_nonzero, Hq).
  set (x := (Qc_of_Z total / Qc_of_Z n)%Qc) in *.
  assert (Hx : (x * Qc_of_Z n = Qc_of_Z total)%Qc)
    by (unfold x; field; exact Hne).
  assert (H1 : (Qc_of_Z (n * (2 * mean - 1)) ≤ Qc_of_Z (2 * total))%Qc).
  { rewrite !Z2Qc_inj_mul, Z2Qc_inj_sub, Z2Qc_inj_mul, <- Hx.
    replace (Qc_of_Z n * (Qc_of_Z 2 * Qc_of_Z mean - Qc_of_Z 1))%Qc
      with ((Qc_of_Z 2 * Qc_of_Z mean - Qc_of_Z 1) * Qc_of_Z n)%Qc by ring.
    replace (Qc_of_Z 2 * (x * Qc_of_Z n))%Qc
      with (Qc_of_Z 2 * x * Qc_of_Z n)%Qc by ring.
    apply Qcmult_le_compat_r; [|apply Qclt_le_weak, Hq].
    clear -Hlo. clearbody x. qc_lra. }
  assert (H2 : (Qc_of_Z (2 * total) < Qc_of_Z (n * (2 * mean + 1)))%Qc).
  { rewrite !Z2Qc_inj_mul, Z2Qc_inj_add, Z2Qc_inj_mul, <- Hx.
    replace (Qc_of_Z n * (Qc_of_Z 2 * Qc_of_Z mean + Qc_of_Z 1))%Qc
      with ((Qc_of_Z 2 * Qc_of_Z mean + Qc_of_Z 1) * Qc_of_Z n)%Qc by ring.
    replace (Qc_of_Z 2 * (x * Qc_of_Z n))%Qc
      with (Qc_of_Z 2 * x * Qc_of_Z n)%Qc by ring.
    apply Qcmult_lt_compat_r; [exact Hq|].
    clear -Hhi. clearbody x. qc_lra. }
  apply Z2Qc_inj_le in H1. apply Z2Qc_inj_lt in H2. split; assumption.
Qed.

(** C10. For an empty list [calculateGoalProgress] returns the object with
    the three properties [averageProgress], [completedGoals] and
    [activeGoals], all [0], and no property [totalGoals]; for a non-empty
    list the object has [totalGoals], the length of the list, and
    [averageProgress], which for goals whose percentages are integers of
    the schema's range is the integer nearest to their mean, a tie going
    up. The summary for an empty goal list has the sentences about the
    statistics only: the read of the missing [totalGoals] is [undefined],
    which is not greater than [0]. *)
Theorem calculateGoalProgress_totalGoals_presence :
  calculateGoalProgress []
  = {[ "averageProgress" := JS.int 0;
       "completedGoals" := JS.int 0;
       "activeGoals" := JS.int 0 ]}
  /\ calculateGoalProgress [] !! "totalGoals" = None
  /\ JS.gt (JS.ToNumber (calculateGoalProgress [] !! "totalGoals"))
       (JS.int 0) = false
  /\ (forall (goal : Goal.t) (rest : list Goal.t),
        let goals := goal :: rest in
        calculateGoalProgress goals !! "totalGoals"
        = Some (JS.int (Z.of_nat (length goals)))
        /\ forall percentages : list Z,
             Forall2
               (fun g p =>
                  Goal.percentage (Goal.progress g) = JS.int p
                  /\ 0 <= p <= 100) goals percentages ->
             exists mean : Z,
               calculateGoalProgress goals !! "averageProgress"
               = Some (JS.int mean)
               /\ Spec.rounded_mean percentages mean)
  /\ (forall (analytics : Analytics) (sport : string),
        generateSummary Number_toString toFixed1 analytics
          (calculateGoalProgress []) sport
        = String.concat " "
            (Spec.stat_sentences Number_toString toFixed1 analytics sport)).
Proof.
  split; [reflexivity|]. split; [reflexivity|]. split; [reflexivity|].
  split.
  - intros goal rest goals. unfold calculateGoalProgress.
    rewrite decide_False by discriminate. cbv zeta.
    split; [simplify_map_eq; reflexivity|].
    intros percentages Hall.
    assert (Hlen : length percentages = length goals)
      by (symmetry; eapply Forall2_length; exact Hall).
    assert (Hsum :
      sum (fun g => Goal.percentage (Goal.progress g)) goals
      = JS.int (foldr Z.add 0 percentages)).
    { unfold sum. rewrite (foldl_add_int _ goals percentages 0).
      - reflexivity.
      - eapply Forall2_impl; [exact Hall|]. intros g p [Hp _]. exact Hp. }
    assert (Hn : 0 < Z.of_nat (length goals))
      by (unfold goals; cbn [length]; lia).
    eexists. split.
    + rewrite !lookup_insert_ne by discriminate.
      rewrite lookup_singleton_eq, Hsum. unfold length_of, JS.int.
      rewrite div_Fin; [reflexivity|].
      apply Qc_of_Z_nonzero. lia.
    + unfold Spec.rounded_mean. rewrite Hlen. cbv zeta.
      apply round_half_up_quotient, Hn.
  - intros analytics sport. rewrite generateSummary_unfold.
    change (JS.gt (JS.ToNumber (calculateGoalProgress [] !! "totalGoals"))
              (JS.int 0)) with false.
    rewrite app_nil_r. reflexivity.
Qed.

End SummaryFacts.

End RollupFacts.

Lemma calculateGoalProgress_totalGoals_presence_witness :
  let goal (value : Z) :=
    (Goal.updateProgress (Qc_of_Z value) None "user-1"
       (Samples.goal Goal.increase 50 Goal.active 1000)
       (Samples.clock_from 0)).1 in
  exists mean : Z,
    Reports.calculateGoalProgress [goal 25; goal 10; goal 0]
      !! "averageProgress" = Some (JS.int mean)
    /\ Spec.rounded_mean [50; 20; 0] mean.
Proof.
  cbv zeta.
  apply
    (proj2
       (proj1
          (proj2
             (proj2
                (proj2
                   (calculateGoalProgress_totalGoals_presence
                      (fun _ => "n") (fun _ => "n")))))
          _ _)).
  repeat constructor; try lia; compute_done.
Defined.

(** * Further properties *)


(** ** The virtuals of a goal and repeated updates *)

Section GoalVirtualFacts.

Import Goal.

Lemma ms_per_day_int : ms_per_day = JS.int 86400000.
Proof. unfold ms_per_day. rewrite !mul_int. reflexivity. Qed.

(** X1. [daysRemaining] is a non-negative integer [d]: it is [0] when the
    due date is not after the clock reading, and otherwise the least number
    of whole days that covers the time left. *)
Theorem daysRemaining_covers_time_left (this : Goal.t) (clk : Clock) :
  exists d : Z,
    (daysRemaining this clk).1 = JS.int d
    /\ 0 <= d
    /\ targetDate this - clk 0%nat <= 86400000 * d
    /\ (d = 0 \/ 86400000 * (d - 1) < targetDate this - clk 0%nat).
Proof.
  unfold daysRemaining, new_Date. cbn [fst].
  rewrite sub_int, ms_per_day_int, ceil_div_int by discriminate.
  rewrite Math_max_int. eexists. split; [reflexivity|].
  set (left := targetDate this - clk 0%nat).
  pose proof (Z.div_mod (- left) 86400000 ltac:(discriminate)) as Hdm.
  pose proof (Z.mod_pos_bound (- left) 86400000 ltac:(reflexivity)) as Hb.
  lia.
Qed.

(** The status left by [updateProgress]. *)
(** X2. [updateProgress] changes the current value, the percentage, the
    update log, the status and the completion instant, and nothing else:
    the target value, the direction, the dates, the milestones, the
    permissions and every other path of the document are kept. *)
Theorem updateProgress_keeps_other_paths
    (this : Goal.t) (newValue : Qc) (notes : option string)
    (updatedBy : ObjectId) (clk : Clock) :
  let this' := (updateProgress newValue notes updatedBy this clk).1 in
  athlete this' = athlete this
  /\ title this' = title this
  /\ description this' = description this
  /\ category this' = category this
  /\ sport this' = sport this
  /\ name (targetMetric this') = name (targetMetric this)
  /\ targetValue (targetMetric this') = targetValue (targetMetric this)
  /\ unit (targetMetric this') = unit (targetMetric this)
  /\ direction (targetMetric this') = direction (targetMetric this)
  /\ startDate this' = startDate this
  /\ targetDate this' = targetDate this
  /\ priority this' = priority this
  /\ milestones (progress this') = milestones (progress this)
  /\ createdBy this' = createdBy this
  /\ canEdit this' = canEdit this
  /\ canView this' = canView this
  /\ reminders this' = reminders this
  /\ tags this' = tags this
  /\ completionNotes this' = completionNotes this
  /\ coachFeedback this' = coachFeedback this.
Proof.
  cbv zeta. rewrite updateProgress_closed_form. cbv zeta.
  destruct (JS.Math_round _); repeat split_if; repeat split; reflexivity.
Qed.

Lemma updateProgress_targetDate newValue notes updatedBy this clk :
  targetDate (updateProgress newValue notes updatedBy this clk).1
  = targetDate this.
Proof.
  rewrite updateProgress_closed_form. cbv zeta.
  destruct (JS.Math_round _); repeat split_if; reflexivity.
Qed.

(** X3. After [updateProgress] the goal is not overdue in the sense of the
    [isOverdue] virtual at the instant of the overdue check of the method:
    it is either no longer active or not past its due date. *)
Theorem isOverdue_false_after_updateProgress
    (this : Goal.t) (newValue : Qc) (notes : option string)
    (updatedBy : ObjectId) (clk : Clock) :
  (isOverdue (updateProgress newValue notes updatedBy this clk).1
     (fun _ => clk 1%nat)).1 = false.
Proof.
  unfold isOverdue, new_Date.
  rewrite updateProgress_status_eq, updateProgress_targetDate.
  destruct (decide (status this = active)) as [Hs|Hs];
    [rewrite !(bool_decide_eq_true_2 _ Hs)
    |rewrite !(bool_decide_eq_false_2 _ Hs); reflexivity].
  destruct (JS.ge _ (JS.int 100)); [reflexivity|].
  destruct (bool_decide (targetDate this < clk 1%nat)) eqn:Hdue;
    [reflexivity|].
  rewrite bool_decide_eq_true_2 by reflexivity. reflexivity.
Qed.

(** X4. A goal that [isOverdue] reports overdue at some instant does not
    stay active through an update checked at that instant or later: it
    ends completed or overdue. *)
Theorem overdue_goal_leaves_active
    (this : Goal.t) (newValue : Qc) (notes : option string)
    (updatedBy : ObjectId) (clk before : Clock) :
  (isOverdue this before).1 = true ->
  before 0%nat <= clk 1%nat ->
  let status' := status (updateProgress newValue notes updatedBy this clk).1 in
  status' = completed \/ status' = overdue.
Proof.
  unfold isOverdue, new_Date. intros Hov Hlater.
  destruct (decide (status this = active)) as [Hs|Hs];
    [rewrite (bool_decide_eq_true_2 _ Hs) in Hov
    |rewrite (bool_decide_eq_false_2 _ Hs) in Hov; discriminate Hov].
  cbn [fst] in Hov. apply bool_decide_eq_true_1 in Hov.
  cbv zeta. rewrite updateProgress_status_eq, (bool_decide_eq_true_2 _ Hs).
  destruct (JS.ge _ _); [left; reflexivity|].
  rewrite bool_decide_eq_true_2 by lia. right. reflexivity.
Qed.

(** X5. Two updates in a row on a goal with a non-zero target: the
    percentage left by the second is the one it would leave on the original
    goal, whatever the first update was, and the log holds the entries of
    both, in call order, after the old entries. *)
Theorem updateProgress_twice
    (this : Goal.t) (v1 v2 : Qc) (notes1 notes2 : option string)
    (by1 by2 : ObjectId) (clk1 clk2 : Clock) :
  targetValue (targetMetric this) <> 0%Qc ->
  let once := (updateProgress v1 notes1 by1 this clk1).1 in
  let twice := (updateProgress v2 notes2 by2 once clk2).1 in
  percentage (progress twice)
  = percentage (progress (updateProgress v2 notes2 by2 this clk2).1)
  /\ currentValue (targetMetric twice) = v2
  /\ updates (progress twice)
     = updates (progress this)
       ++ [ {| date := clk1 0%nat; value := v1; notes := notes1;
               updatedBy := by1 |};
            {| date := clk2 0%nat; value := v2; notes := notes2;
               updatedBy := by2 |} ].
Proof.
  intros Ht. cbv zeta.
  assert (Hm :
    targetMetric (updateProgress v1 notes1 by1 this clk1).1
    = targetMetric (set_currentValue v1 this))
    by apply updateProgress_targetMetric.
  split; [|split].
  - rewrite !updateProgress_percentage_spec; rewrite ?Hm; [reflexivity|..];
      exact Ht.
  - rewrite updateProgress_targetMetric. reflexivity.
  - rewrite !updateProgress_updates_eq, <- app_assoc. reflexivity.
Qed.

(** X6. [updateProgress] keeps the invariant that a completed goal has a
    completion instant: it sets [completedAt] whenever it completes a goal
    and never clears it. *)
Theorem updateProgress_keeps_completion_recorded
    (this : Goal.t) (newValue : Qc) (notes : option string)
    (updatedBy : ObjectId) (clk : Clock) :
  (status this = completed -> is_Some (completedAt this)) ->
  let this' := (updateProgress newValue notes updatedBy this clk).1 in
  (status this' = completed -> is_Some (completedAt this'))
  /\ (is_Some (completedAt this) -> is_Some (completedAt this')).
Proof.
  intros Hinv. cbv zeta.
  rewrite updateProgress_status_eq, updateProgress_completedAt_eq.
  destruct (decide (status this = active)) as [Hs|Hs];
    [rewrite !(bool_decide_eq_true_2 _ Hs)
    |rewrite !(bool_decide_eq_false_2 _ Hs)].
  - destruct (JS.ge _ _); cbn [andb]; [split; eauto|].
    split; [|trivial]. destruct (bool_decide _); discriminate.
  - cbn [andb]. split; [exact Hinv|trivial].
Qed.

End GoalVirtualFacts.

Lemma updateProgress_keeps_completion_recorded_witness :
  let this := Samples.goal Goal.increase 50 Goal.active 1000 in
  let this' :=
    (Goal.updateProgress (Qc_of_Z 50) None "user-1" this
       (Samples.clock_from 0)).1 in
  (Goal.status this' = Goal.completed -> is_Some (Goal.completedAt this'))
  /\ (is_Some (Goal.completedAt this) -> is_Some (Goal.completedAt this')).
Proof.
  apply
    (updateProgress_keeps_completion_recorded
       (Samples.goal Goal.increase 50 Goal.active 1000)).
  simpl. discriminate.
Defined.

Lemma overdue_goal_leaves_active_witness :
  let this := Samples.goal Goal.increase 50 Goal.active 1000 in
  let status' :=
    Goal.status
      (Goal.updateProgress (Qc_of_Z 10) None "user-1" this
         (Samples.clock_from 3000)).1 in
  status' = Goal.completed \/ status' = Goal.overdue.
Proof.
  apply
    (overdue_goal_leaves_active
       (Samples.goal Goal.increase 50 Goal.active 1000) (Qc_of_Z 10) None
       "user-1" (Samples.clock_from 3000) (Samples.clock_from 2000)).
  - reflexivity.
  - vm_compute. discriminate.
Defined.

Lemma updateProgress_twice_witness :
  let this := Samples.goal Goal.increase 50 Goal.active 1000 in
  let once :=
    (Goal.updateProgress (Qc_of_Z 60) None "user-1" this
       (Samples.clock_from 0)).1 in
  let twice :=
    (Goal.updateProgress (Qc_of_Z 10) None "user-2" once
       (Samples.clock_from 10)).1 in
  Goal.percentage (Goal.progress twice)
  = Goal.percentage
      (Goal.progress
         (Goal.updateProgress (Qc_of_Z 10) None "user-2" this
            (Samples.clock_from 10)).1)
  /\ Goal.currentValue (Goal.targetMetric twice) = Qc_of_Z 10
  /\ Goal.updates (Goal.progress twice)
     = Goal.updates (Goal.progress this)
       ++ [ {| Goal.date := 0; Goal.value := Qc_of_Z 60;
               Goal.notes := None; Goal.updatedBy := "user-1" |};
            {| Goal.date := 10; Goal.value := Qc_of_Z 10;
               Goal.notes := None; Goal.updatedBy := "user-2" |} ].
Proof.
  apply
    (updateProgress_twice
       (Samples.goal Goal.increase 50 Goal.active 1000) (Qc_of_Z 60)
       (Qc_of_Z 10) None None "user-1" "user-2" (Samples.clock_from 0)
       (Samples.clock_from 10)).
  vm_compute. discriminate.
Defined.

(** ** The percentage as a function of the new value *)

Section PercentageFacts.

Import Goal.
Local Open Scope Qc_scope.

(** A bound on a quotient times a constant, cleared of the division. *)
Lemma le_div_mul (b v t c : Qc) : 0 < t -> (b * t ≤ v * c <-> b ≤ v / t * c).
Proof.
  intros Ht. pose proof (pos_nonzero t Ht) as Hne.
  replace (v * c) with (v / t * c * t) by (field; exact Hne).
  split; intros H.
  - eapply Qcmult_lt_0_le_reg_r; eassumption.
  - apply Qcmult_le_compat_r; [exact H|apply Qclt_le_weak, Ht].
Qed.

Lemma div_mul_le (b v t c : Qc) : 0 < t -> (v * c ≤ b * t <-> v / t * c ≤ b).
Proof.
  intros Ht. pose proof (pos_nonzero t Ht) as Hne.
  replace (v * c) with (v / t * c * t) by (field; exact Hne).
  split; intros H.
  - eapply Qcmult_lt_0_le_reg_r; eassumption.
  - apply Qcmult_le_compat_r; [exact H|apply Qclt_le_weak, Ht].
Qed.

Lemma div_mul_mono (a b t c : Qc) :
  0 < t -> 0 ≤ c -> a ≤ b -> a / t * c ≤ b / t * c.
Proof.
  intros Ht Hc Hab. apply (le_div_mul (a / t * c) b t c Ht).
  replace (a / t * c * t) with (a * c) by (field; exact (pos_nonzero t Ht)).
  apply Qcmult_le_compat_r; assumption.
Qed.

Lemma min_mono_r (c a b : Qc) : a ≤ b -> Spec.min c a ≤ Spec.min c b.
Proof. unfold Spec.min. intros Hab. repeat case_decide; qc_lra. Qed.

Lemma min_ge (c a b : Qc) : b ≤ c -> b ≤ a -> b ≤ Spec.min c a.
Proof. unfold Spec.min. intros. case_decide; assumption. Qed.

Lemma min_le_r (c a : Qc) : Spec.min c a ≤ a.
Proof. unfold Spec.min. case_decide; qc_lra. Qed.

Lemma round_half_up_int (z : Z) : JS.round_half_up (Qc_of_Z z) = z.
Proof.
  pose proof (round_half_up_rounds (Qc_of_Z z)) as [Hlo Hhi].
  set (r := JS.round_half_up (Qc_of_Z z)) in *.
  assert (H1 : Qc_of_Z (2 * r - 1) ≤ Qc_of_Z (2 * z)).
  { rewrite Z2Qc_inj_sub, !Z2Qc_inj_mul. qc_lra. }
  assert (H2 : Qc_of_Z (2 * z) < Qc_of_Z (2 * r + 1)).
  { rewrite Z2Qc_inj_add, !Z2Qc_inj_mul. qc_lra. }
  apply Z2Qc_inj_le in H1. apply Z2Qc_inj_lt in H2. lia.
Qed.

(** X7. With a positive target, the percentage of an increase goal never
    decreases when the new value grows, and that of a decrease goal never
    increases. *)
Theorem updateProgress_percentage_monotone
    (this : Goal.t) (v1 v2 : Qc) (notes1 notes2 : option string)
    (by1 by2 : ObjectId) (clk1 clk2 : Clock) :
  0 < targetValue (targetMetric this) ->
  v1 ≤ v2 ->
  let p1 :=
    percentage (progress (updateProgress v1 notes1 by1 this clk1).1) in
  let p2 :=
    percentage (progress (updateProgress v2 notes2 by2 this clk2).1) in
  match direction (targetMetric this) with
  | increase => JS.le p1 p2 = true
  | decrease => JS.le p2 p1 = true
  | maintain => True
  end.
Proof.
  intros Ht Hv. cbv zeta.
  rewrite !updateProgress_percentage_spec by (apply pos_nonzero, Ht).
  assert (H100 : 0 ≤ Qc_of_Z 100) by (clear; qc_lra).
  destruct (direction (targetMetric this)); [| |exact I];
    rewrite le_int; apply bool_decide_eq_true_2;
    apply round_half_up_mono; unfold Spec.percentage;
    apply min_mono_r, div_mul_mono; try assumption.
  qc_lra.
Qed.

(** X8. With a positive target, an increase goal updated to a value that
    is at least the target is at 100 percent, and completes when it was
    active; updated to a value below 99 percent of the target it is below
    100 percent, and does not complete. *)
Theorem updateProgress_increase_reaches_100
    (this : Goal.t) (newValue : Qc) (notes : option string)
    (updatedBy : ObjectId) (clk : Clock) :
  0 < targetValue (targetMetric this) ->
  direction (targetMetric this) = increase ->
  let this' := (updateProgress newValue notes updatedBy this clk).1 in
  (targetValue (targetMetric this) ≤ newValue ->
   percentage (progress this') = JS.int 100
   /\ (status this = active -> status this' = completed))
  /\ (Qc_of_Z 100 * newValue < Qc_of_Z 99 * targetValue (targetMetric this) ->
      JS.ge (percentage (progress this')) (JS.int 100) = false
      /\ (status this' = completed -> status this = completed)).
Proof.
  intros Ht Hdir. cbv zeta.
  assert (Hp :
    percentage (progress (updateProgress newValue notes updatedBy this clk).1)
    = JS.int
        (JS.round_half_up
           (Spec.min (Qc_of_Z 100)
              (newValue / targetValue (targetMetric this) * Qc_of_Z 100)))).
  { rewrite updateProgress_percentage_spec by (apply pos_nonzero, Ht).
    rewrite Hdir. reflexivity. }
  set (t := targetValue (targetMetric this)) in *.
  set (x := newValue / t * Qc_of_Z 100) in *.
  split.
  - intros Hv.
    assert (H100 :
      percentage
        (progress (updateProgress newValue notes updatedBy this clk).1)
      = JS.int 100).
    { rewrite Hp. f_equal. apply Z.le_antisymm.
      - rewrite <- (round_half_up_int 100) at 2.
        apply round_half_up_mono, min_le_l.
      - rewrite <- (round_half_up_int 100) at 1.
        apply round_half_up_mono, min_ge; [apply Qcle_refl|].
        apply (proj1 (le_div_mul (Qc_of_Z 100) newValue t (Qc_of_Z 100) Ht)).
        clearbody t. clear -Hv. qc_lra. }
    split; [exact H100|]. intros Hs.
    rewrite updateProgress_status_eq, H100, (bool_decide_eq_true_2 _ Hs).
    reflexivity.
  - intros Hv.
    assert (Hlt :
      JS.ge
        (percentage
           (progress (updateProgress newValue notes updatedBy this clk).1))
        (JS.int 100) = false).
    { rewrite Hp. unfold JS.ge. rewrite le_int.
      apply bool_decide_eq_false_2. intros Hge.
      assert (Hx : x ≤ Qc_of_Z 99).
      { apply (proj1 (div_mul_le (Qc_of_Z 99) newValue t (Qc_of_Z 100) Ht)).
        clearbody t. clear -Hv. qc_lra. }
      assert (Hr :
        (JS.round_half_up (Spec.min (Qc_of_Z 100) x)
         <= JS.round_half_up (Qc_of_Z 99))%Z).
      { apply round_half_up_mono.
        eapply Qcle_trans; [apply min_le_r|exact Hx]. }
      rewrite round_half_up_int in Hr. lia. }
    split; [exact Hlt|].
    rewrite updateProgress_status_eq, Hlt.
    destruct (bool_decide (status this = active)); [|trivial].
    destruct (bool_decide _); discriminate.
Qed.

(** X9. A goal with a non-zero target updated to exactly its target value
    is at 100 percent for the directions increase and maintain, and at 0
    percent for the direction decrease; a decrease goal is at 100 percent
    when updated to 0. *)
Theorem updateProgress_at_target
    (this : Goal.t) (notes : option string) (updatedBy : ObjectId)
    (clk : Clock) :
  targetValue (targetMetric this) <> 0 ->
  let at_target :=
    percentage
      (progress
         (updateProgress (targetValue (targetMetric this)) notes updatedBy
            this clk).1) in
  let at_zero :=
    percentage (progress (updateProgress 0 notes updatedBy this clk).1) in
  match direction (targetMetric this) with
  | increase => at_target = JS.int 100
  | decrease => at_target = JS.int 0 /\ at_zero = JS.int 100
  | maintain => at_target = JS.int 100
  end.
Proof.
  intros Ht. cbv zeta.
  rewrite !updateProgress_percentage_spec by exact Ht.
  set (t := targetValue (targetMetric this)) in *.
  unfold Spec.percentage.
  assert (Hmin100 : Spec.min (Qc_of_Z 100) (Qc_of_Z 100) = Qc_of_Z 100)
    by reflexivity.
  assert (Hmin0 : Spec.min (Qc_of_Z 100) (Qc_of_Z 0) = Qc_of_Z 0)
    by reflexivity.
  assert (Hmax : Spec.max (Qc_of_Z 0) (Qc_of_Z 100) = Qc_of_Z 100)
    by reflexivity.
  destruct (direction (targetMetric this)).
  - replace (t / t * Qc_of_Z 100) with (Qc_of_Z 100) by (field; exact Ht).
    rewrite Hmin100, round_half_up_int. reflexivity.
  - split.
    + replace ((t - t) / t * Qc_of_Z 100) with (Qc_of_Z 0)
        by (rewrite Z2Qc_inj_0; field; exact Ht).
      rewrite Hmin0, round_half_up_int. reflexivity.
    + replace ((t - 0) / t * Qc_of_Z 100) with (Qc_of_Z 100)
        by (field; exact Ht).
      rewrite Hmin100, round_half_up_int. reflexivity.
  - replace (t - t) with 0 by ring.
    assert (Habs : Spec.abs 0 = 0) by reflexivity. rewrite Habs.
    replace (Qc_of_Z 100 - 0 / t * Qc_of_Z 100) with (Qc_of_Z 100)
      by (field; exact Ht).
    rewrite Hmax, round_half_up_int. reflexivity.
Qed.

(** X10. With a positive target, the percentage of a maintain goal is in
    the range of the schema, from 0 to 100, for every new value. *)
Theorem updateProgress_maintain_in_range
    (this : Goal.t) (newValue : Qc) (notes : option string)
    (updatedBy : ObjectId) (clk : Clock) :
  0 < targetValue (targetMetric this) ->
  direction (targetMetric this) = maintain ->
  percentage_in_schema_range
    (percentage (progress (updateProgress newValue notes updatedBy this clk).1))
  = true.
Proof.
  intros Ht Hdir.
  rewrite updateProgress_percentage_spec by (apply pos_nonzero, Ht).
  rewrite Hdir. unfold Spec.percentage, percentage_in_schema_range.
  set (t := targetValue (targetMetric this)) in *.
  set (y := Spec.abs (newValue - t) / t * Qc_of_Z 100).
  assert (Hy : 0 ≤ y).
  { pose proof (abs_nonneg (newValue - t)) as Ha. unfold y.
    set (a := Spec.abs (newValue - t)) in *. clearbody a.
    apply (proj1 (le_div_mul 0 a t (Qc_of_Z 100) Ht)).
    clear -Ha. clearbody t. qc_lra. }
  rewrite !le_int, andb_true_iff, !bool_decide_eq_true. split.
  - rewrite <- (round_half_up_int 0) at 1.
    apply round_half_up_mono, max_ge_l.
  - rewrite <- (round_half_up_int 100) at 2.
    apply round_half_up_mono. unfold Spec.max. clearbody y.
    case_decide; qc_lra.
Qed.

(** X11. With a zero target nothing guards the division: an increase goal
    updated to a positive value is at 100 percent, and completes when it
    was active; updated to a negative value it is at [-Infinity]; updated
    to 0 the computed percentage is [NaN], which the path refuses, and the
    goal keeps the percentage it had. *)
Theorem updateProgress_increase_zero_target
    (this : Goal.t) (newValue : Qc) (notes : option string)
    (updatedBy : ObjectId) (clk : Clock) :
  targetValue (targetMetric this) = 0 ->
  direction (targetMetric this) = increase ->
  let this' := (updateProgress newValue notes updatedBy this clk).1 in
  percentage (progress this')
  = match newValue ?= 0 with
    | Gt => JS.int 100
    | Eq => percentage (progress this)
    | Lt => JS.NegInf
    end
  /\ (0 < newValue -> status this = active -> status this' = completed).
Proof.
  intros Ht Hdir. cbv zeta.
  assert (Hp :
    percentage (progress (updateProgress newValue notes updatedBy this clk).1)
    = match newValue ?= 0 with
      | Gt => JS.int 100
      | Eq => percentage (progress this)
      | Lt => JS.NegInf
      end).
  { rewrite updateProgress_percentage_eq. unfold raw_percentage.
    cbn [set_currentValue targetMetric direction currentValue targetValue].
    rewrite Hdir, Ht. unfold JS.div.
    rewrite decide_True by reflexivity. unfold JS.sgn.
    destruct (newValue ?= 0); reflexivity. }
  split; [exact Hp|].
  intros Hpos Hs. rewrite updateProgress_status_eq, Hp.
  apply Qcgt_alt in Hpos. rewrite Hpos.
  rewrite (bool_decide_eq_true_2 _ Hs). reflexivity.
Qed.

End PercentageFacts.

Lemma updateProgress_percentage_monotone_witness :
  let this := Samples.goal Goal.increase 50 Goal.active 1000 in
  let p1 :=
    Goal.percentage
      (Goal.progress
         (Goal.updateProgress (Qc_of_Z 10) None "user-1" this
            (Samples.clock_from 0)).1) in
  let p2 :=
    Goal.percentage
      (Goal.progress
         (Goal.updateProgress (Qc_of_Z 20) None "user-1" this
            (Samples.clock_from 0)).1) in
  JS.le p1 p2 = true.
Proof.
  apply
    (updateProgress_percentage_monotone
       (Samples.goal Goal.increase 50 Goal.active 1000)
       (Qc_of_Z 10) (Qc_of_Z 20)).
  - vm_compute. reflexivity.
  - vm_compute. discriminate.
Defined.

Lemma updateProgress_increase_reaches_100_witness :
  let this := Samples.goal Goal.increase 50 Goal.active 1000 in
  let this' :=
    (Goal.updateProgress (Qc_of_Z 60) None "user-1" this
       (Samples.clock_from 0)).1 in
  Goal.percentage (Goal.progress this') = JS.int 100
  /\ (Goal.status this = Goal.active -> Goal.status this' = Goal.completed).
Proof.
  apply
    (updateProgress_increase_reaches_100
       (Samples.goal Goal.increase 50 Goal.active 1000) (Qc_of_Z 60)).
  - vm_compute. reflexivity.
  - reflexivity.
  - vm_compute. discriminate.
Defined.

Lemma updateProgress_at_target_witness :
  let this := Samples.goal Goal.decrease 50 Goal.active 1000 in
  Goal.percentage
    (Goal.progress
       (Goal.updateProgress (Qc_of_Z 50) None "user-1" this
          (Samples.clock_from 0)).1) = JS.int 0
  /\ Goal.percentage
       (Goal.progress
          (Goal.updateProgress 0%Qc None "user-1" this
             (Samples.clock_from 0)).1) = JS.int 100.
Proof.
  apply
    (updateProgress_at_target
       (Samples.goal Goal.decrease 50 Goal.active 1000)).
  vm_compute. discriminate.
Defined.

Lemma updateProgress_maintain_in_range_witness :
  Goal.percentage_in_schema_range
    (Goal.percentage
       (Goal.progress
          (Goal.updateProgress (Qc_of_Z 500) None "user-1"
             (Samples.goal Goal.maintain 50 Goal.active 1000)
             (Samples.clock_from 0)).1))
  = true.
Proof.
  apply
    (updateProgress_maintain_in_range
       (Samples.goal Goal.maintain 50 Goal.active 1000)).
  - vm_compute. reflexivity.
  - reflexivity.
Defined.

Lemma updateProgress_increase_zero_target_witness :
  let this := Samples.goal Goal.increase 0 Goal.active 1000 in
  let this' :=
    (Goal.updateProgress (Qc_of_Z 5) None "user-1" this
       (Samples.clock_from 0)).1 in
  Goal.percentage (Goal.progress this')
  = match (Qc_of_Z 5 ?= 0)%Qc with
    | Gt => JS.int 100
    | Eq => Goal.percentage (Goal.progress this)
    | Lt => JS.NegInf
    end
  /\ ((0 < Qc_of_Z 5)%Qc ->
      Goal.status this = Goal.active -> Goal.status this' = Goal.completed).
Proof.
  apply
    (updateProgress_increase_zero_target
       (Samples.goal Goal.increase 0 Goal.active 1000)).
  - apply Qc_is_canon. reflexivity.
  - reflexivity.
Defined.

(** ** Ranges of the derived percentages and of their averages *)

Section RangeFacts.

Import Reports.
Local Open Scope Qc_scope.

Lemma ratio_in_range (made attempted : Qc) :
  0 ≤ made -> made ≤ attempted ->
  0 ≤ Spec.ratio made attempted /\ Spec.ratio made attempted ≤ Qc_of_Z 100.
Proof.
  intros Hm Hma. unfold Spec.ratio. case_decide as Hpos; [|split; qc_lra].
  split.
  - apply (proj1 (le_div_mul 0 made attempted (Qc_of_Z 100) Hpos)). qc_lra.
  - apply (proj1 (div_mul_le (Qc_of_Z 100) made attempted (Qc_of_Z 100) Hpos)).
    qc_lra.
Qed.

(** X12. When the made counter is between 0 and the attempt counter, the
    field-goal percentage of a Stat document is a finite number between 0
    and 100. *)
Theorem fieldGoalPercentage_in_range (this : Stat.t) :
  0 ≤ Stat.Basketball.fieldGoalsMade (Stat.basketball this) ->
  Stat.Basketball.fieldGoalsMade (Stat.basketball this)
  ≤ Stat.Basketball.fieldGoalsAttempted (Stat.basketball this) ->
  exists q : Qc,
    Stat.fieldGoalPercentage this = JS.Fin q /\ 0 ≤ q /\ q ≤ Qc_of_Z 100.
Proof.
  intros Hm Hma. eexists. split.
  - unfold Stat.fieldGoalPercentage. apply guarded_ratio_Fin.
  - apply ratio_in_range; assumption.
Qed.

(** The sum of finite numbers between [0] and [c] is a finite number
    between [0] and [c] times their count. *)
Lemma foldl_add_bounded {A} (f : A -> number) (c : Qc) (xs : list A)
    (a : Qc) (k : Z) :
  Forall (fun x => exists q, f x = JS.Fin q /\ 0 ≤ q /\ q ≤ c) xs ->
  0 ≤ a -> a ≤ c * Qc_of_Z k ->
  exists s : Qc,
    foldl (fun sum x => JS.add sum (f x)) (JS.Fin a) xs = JS.Fin s
    /\ 0 ≤ s /\ s ≤ c * Qc_of_Z (k + Z.of_nat (length xs)).
Proof.
  intros Hxs. revert a k.
  induction Hxs as [|x xs (q & Hq & Hq0 & Hqc) _ IH]; intros a k Ha0 Hac.
  - exists a. cbn [foldl length]. rewrite Z.add_0_r. auto.
  - cbn [foldl length]. rewrite Hq. cbn [JS.add].
    destruct (IH (a + q) (k + 1)%Z) as (s & Hs & Hs0 & Hsc).
    + qc_lra.
    + rewrite Z2Qc_inj_add. 
      replace (Qc_of_Z 1) with 1 by (symmetry; apply Z2Qc_inj_1).
      clear -Hac Hqc. 
      replace (c * (Qc_of_Z k + 1)) with (c * Qc_of_Z k + c) by ring.
      qc_lra.
    + exists s. split; [exact Hs|]. split; [exact Hs0|].
      replace (k + Z.of_nat (S (length xs)))%Z
        with (k + 1 + Z.of_nat (length xs))%Z by lia.
      exact Hsc.
Qed.

Lemma sum_bounded {A} (f : A -> number) (c : Qc) (xs : list A) :
  Forall (fun x => exists q, f x = JS.Fin q /\ 0 ≤ q /\ q ≤ c) xs ->
  exists s : Qc,
    sum f xs = JS.Fin s
    /\ 0 ≤ s /\ s ≤ c * Qc_of_Z (Z.of_nat (length xs)).
Proof.
  intros Hxs. unfold sum, JS.int.
  destruct (foldl_add_bounded f c xs (Qc_of_Z 0) 0 Hxs) as (s & Hs & H0 & Hc).
  - rewrite Z2Qc_inj_0. apply Qcle_refl.
  - rewrite Z2Qc_inj_0, Qcmult_0_r. apply Qcle_refl.
  - exists s. auto.
Qed.

(** The mean of a bounded sum over a non-empty list. *)
Lemma mean_bounded {A} (s c : Qc) (x : A) (xs : list A) :
  0 ≤ s -> s ≤ c * Qc_of_Z (Z.of_nat (length (x :: xs))) ->
  exists m : Qc,
    JS.div (JS.Fin s) (length_of (x :: xs)) = JS.Fin m /\ 0 ≤ m /\ m ≤ c.
Proof.
  intros H0 Hc. unfold length_of, JS.int.
  set (n := Qc_of_Z (Z.of_nat (length (x :: xs)))) in *.
  assert (Hn : 0 < n).
  { unfold n. rewrite <- Z2Qc_inj_0. apply (proj1 (Z2Qc_inj_lt 0 _)).
    cbn [length]. lia. }
  rewrite div_Fin by (apply pos_nonzero, Hn).
  exists (s / n). split; [reflexivity|].
  replace (s / n) with (s / n * 1) by ring. split.
  - apply (proj1 (le_div_mul 0 s n 1 Hn)). clearbody n. qc_lra.
  - apply (proj1 (div_mul_le c s n 1 Hn)). clearbody n. qc_lra.
Qed.

(** X13. For a non-empty list of basketball records whose made field goals
    are between 0 and the attempts, the averaged field-goal percentage is a
    finite number between 0 and 100. *)
Theorem averageFieldGoalPercentage_in_range
    (stat : Stat.t) (rest : list Stat.t) :
  Forall
    (fun s =>
       0 ≤ Stat.Basketball.fieldGoalsMade (Stat.basketball s)
       /\ Stat.Basketball.fieldGoalsMade (Stat.basketball s)
          ≤ Stat.Basketball.fieldGoalsAttempted (Stat.basketball s))
    (stat :: rest) ->
  exists q : Qc,
    averageFieldGoalPercentage
      (calculateAnalytics (stat :: rest) "basketball")
    = Some (JS.Fin q)
    /\ 0 ≤ q /\ q ≤ Qc_of_Z 100.
Proof.
  intros Hsane.
  destruct (sum_bounded Stat.fieldGoalPercentage (Qc_of_Z 100) (stat :: rest))
    as (s & Hs & Hs0 & Hsc).
  { eapply Forall_impl; [exact Hsane|]. intros s [Hm Hma].
    eexists. split; [apply guarded_ratio_Fin|].
    apply ratio_in_range; assumption. }
  destruct (mean_bounded s (Qc_of_Z 100) stat rest Hs0 Hsc) as (m & Hm & Hm0).
  exists m. split; [|exact Hm0].
  unfold calculateAnalytics. rewrite decide_False by discriminate.
  rewrite decide_True by reflexivity.
  cbn [averageFieldGoalPercentage]. rewrite Hs, Hm. reflexivity.
Qed.

End RangeFacts.

Lemma fieldGoalPercentage_in_range_witness :
  exists q : Qc,
    Stat.fieldGoalPercentage Samples.game_A = JS.Fin q
    /\ (0 ≤ q)%Qc /\ (q ≤ Qc_of_Z 100)%Qc.
Proof.
  apply (fieldGoalPercentage_in_range Samples.game_A);
    vm_compute; discriminate.
Defined.

Lemma averageFieldGoalPercentage_in_range_witness :
  exists q : Qc,
    Reports.averageFieldGoalPercentage
      (Reports.calculateAnalytics [Samples.game_A; Samples.game_B]
         "basketball")
    = Some (JS.Fin q)
    /\ (0 ≤ q)%Qc /\ (q ≤ Qc_of_Z 100)%Qc.
Proof.
  apply (averageFieldGoalPercentage_in_range Samples.game_A [Samples.game_B]).
  repeat constructor; vm_compute; discriminate.
Defined.

(** ** Means and counts *)

Section MeanFacts.

Import Reports.
Local Open Scope Qc_scope.

Lemma or_zero_Fin (q : Qc) : JS.or_zero (JS.Fin q) = JS.Fin q.
Proof.
  unfold JS.or_zero, JS.truthy. case_bool_decide as H; [reflexivity|].
  assert (q = 0) as -> by (destruct (decide (q = 0)); [assumption|contradiction]).
  unfold JS.int. rewrite Z2Qc_inj_0. reflexivity.
Qed.

(** Three disjoint filters and the rest make up the list. *)
Lemma status_counts (goals : list Goal.t) :
  (length (filter (fun g => Goal.status g = Goal.active) goals)
   + length (filter (fun g => Goal.status g = Goal.completed) goals)
   + length
       (filter
          (fun g =>
             Goal.status g <> Goal.active
             /\ Goal.status g <> Goal.completed) goals)
   = length goals)%nat.
Proof.
  induction goals as [|g goals IH]; [reflexivity|].
  rewrite !filter_cons. cbn [length].
  repeat case_decide; cbn [length]; try lia;
    destruct (Goal.status g); intuition congruence.
Qed.

(** X15. In the roll-up of a non-empty goal list, [activeGoals] and
    [completedGoals] are counts whose sum, together with the number of goals
    that are neither active nor completed, is [totalGoals]. *)
Theorem calculateGoalProgress_counts (goal : Goal.t) (rest : list Goal.t) :
  let goals := goal :: rest in
  let others :=
    filter
      (fun g =>
         Goal.status g <> Goal.active /\ Goal.status g <> Goal.completed)
      goals in
  exists a c : Z,
    calculateGoalProgress goals !! "activeGoals" = Some (JS.int a)
    /\ calculateGoalProgress goals !! "completedGoals" = Some (JS.int c)
    /\ calculateGoalProgress goals !! "totalGoals"
       = Some (JS.int (a + c + Z.of_nat (length others)))
    /\ (0 <= a)%Z /\ (0 <= c)%Z.
Proof.
  cbv zeta. unfold calculateGoalProgress.
  rewrite decide_False by discriminate. cbv zeta.
  eexists _, _. split; [simplify_map_eq; reflexivity|].
  split; [simplify_map_eq; reflexivity|].
  split; [|split; lia].
  rewrite lookup_insert_eq. unfold length_of. do 2 f_equal.
  pose proof (status_counts (goal :: rest)). lia.
Qed.

Lemma in_schema_range_Fin (p : number) :
  Goal.percentage_in_schema_range p = true ->
  exists q : Qc, p = JS.Fin q /\ 0 ≤ q /\ q ≤ Qc_of_Z 100.
Proof.
  unfold Goal.percentage_in_schema_range, JS.int. intros H.
  apply andb_true_iff in H as [H0 H100].
  destruct p as [q| | |]; try discriminate.
  cbn [JS.le] in *. apply bool_decide_eq_true_1 in H0, H100.
  exists q. split; [reflexivity|]. split; [|exact H100].
  rewrite <- Z2Qc_inj_0. exact H0.
Qed.

(** X16. When the percentage of every goal is in the range of the schema,
    from 0 to 100, so is the [averageProgress] of the roll-up, for every
    list of goals, the empty one included. *)
Theorem averageProgress_in_range (goals : list Goal.t) :
  Forall
    (fun g =>
       Goal.percentage_in_schema_range (Goal.percentage (Goal.progress g))
       = true) goals ->
  exists p : number,
    calculateGoalProgress goals !! "averageProgress" = Some p
    /\ Goal.percentage_in_schema_range p = true.
Proof.
  intros Hall. destruct goals as [|goal rest].
  - exists (JS.int 0). split; reflexivity.
  - unfold calculateGoalProgress. rewrite decide_False by discriminate.
    cbv zeta. eexists. split; [simplify_map_eq; reflexivity|].
    destruct
      (sum_bounded (fun g => Goal.percentage (Goal.progress g))
         (Qc_of_Z 100) (goal :: rest)) as (s & Hs & Hs0 & Hsc).
    { eapply Forall_impl; [exact Hall|]. intros g Hg.
      apply in_schema_range_Fin, Hg. }
    destruct (mean_bounded s (Qc_of_Z 100) goal rest Hs0 Hsc)
      as (m & Hm & Hm0 & Hm100).
    rewrite Hs, Hm. cbn [JS.Math_round].
    unfold Goal.percentage_in_schema_range.
    rewrite !le_int, andb_true_iff, !bool_decide_eq_true. split.
    + rewrite <- (round_half_up_int 0) at 1. apply round_half_up_mono.
      rewrite Z2Qc_inj_0. exact Hm0.
    + rewrite <- (round_half_up_int 100) at 1.
      apply round_half_up_mono, Hm100.
Qed.

End MeanFacts.

Lemma averageProgress_in_range_witness :
  exists p : number,
    Reports.calculateGoalProgress
      [Samples.goal Goal.increase 50 Goal.active 1000] !! "averageProgress"
    = Some p
    /\ Goal.percentage_in_schema_range p = true.
Proof.
  apply
    (averageProgress_in_range
       [Samples.goal Goal.increase 50 Goal.active 1000]).
  repeat constructor.
Defined.

(** ** The team averages *)

Section TeamFacts.

Import Reports.
Local Open Scope Z_scope.

(** The properties of the team averages of a non-empty athlete list
    depend on the sport alone: the two general averages, with three more
    averages for basketball and two totals for soccer. *)
Lemma calculateTeamAverages_properties
    (athlete : TeamAthlete.t) (rest : list TeamAthlete.t) (sport : string) :
  dom (calculateTeamAverages (athlete :: rest) sport)
  = if decide (sport = "basketball") then
      {[ "totalGames"; "averageGoalProgress"; "averagePoints";
         "averageRebounds"; "averageAssists" ]}
    else if decide (sport = "soccer") then
      {[ "totalGames"; "averageGoalProgress"; "totalGoals"; "totalAssists" ]}
    else {[ "totalGames"; "averageGoalProgress" ]}.
Proof.
  unfold calculateTeamAverages. rewrite decide_False by discriminate.
  cbv zeta. repeat case_decide;
    rewrite ?dom_insert_L, ?dom_empty_L; set_solver.
Qed.

(** The sum of finite numbers that are not negative is one. *)
Lemma sum_nonneg {A} (f : A -> number) (xs : list A) :
  Forall (fun x => exists q : Qc, f x = JS.Fin q /\ (0 ≤ q)%Qc) xs ->
  exists s : Qc, sum f xs = JS.Fin s /\ (0 ≤ s)%Qc.
Proof.
  unfold sum, JS.int. intros Hxs.
  assert (Hacc : (0 ≤ Qc_of_Z 0)%Qc) by (rewrite Z2Qc_inj_0; apply Qcle_refl).
  revert Hacc. generalize (Qc_of_Z 0) as acc.
  induction Hxs as [|x xs (q & Hq & Hq0) _ IH]; intros acc Hacc.
  - exists acc. split; [reflexivity|exact Hacc].
  - cbn [foldl]. rewrite Hq. cbn [JS.add]. apply IH.
    clear -Hacc Hq0. qc_lra.
Qed.

(** X17. The team averages of the team route: none for a team without
    athletes, where the route answers 404; for a team with athletes, the
    properties of the object are decided by the sport of the first athlete
    alone (the two general averages, with three more averages for
    basketball and two totals for soccer), and [totalGames] is a finite
    number that is not negative. *)
Theorem teamReport_averages_properties
    (first : Member.t) (rest : list Member.t) :
  teamReport_averages [] = None
  /\ exists averages : gmap string number,
       teamReport_averages (first :: rest) = Some averages
       /\ dom averages
          = (if decide (Member.sport first = "basketball") then
               {[ "totalGames"; "averageGoalProgress"; "averagePoints";
                  "averageRebounds"; "averageAssists" ]}
             else if decide (Member.sport first = "soccer") then
               {[ "totalGames"; "averageGoalProgress"; "totalGoals";
                  "totalAssists" ]}
             else {[ "totalGames"; "averageGoalProgress" ]})
       /\ exists q : Qc,
            averages !! "totalGames" = Some (JS.Fin q) /\ (0 ≤ q)%Qc.
Proof.
  split; [reflexivity|]. eexists. split; [reflexivity|]. split.
  - cbn [map]. apply calculateTeamAverages_properties.
  - set (entries := map teamAthlete (first :: rest)).
    destruct (sum_nonneg TeamAthlete.totalGames entries) as (s & Hs & Hs0).
    { unfold entries. apply Forall_map, Forall_forall. intros m _.
      cbn [teamAthlete TeamAthlete.totalGames]. unfold length_of, JS.int.
      eexists. split; [reflexivity|].
      rewrite <- Z2Qc_inj_0. apply (proj1 (Z2Qc_inj_le 0 _)). lia. }
    set (n := Qc_of_Z (Z.of_nat (length entries))).
    assert (Hn : (0 < n)%Qc).
    { unfold n. rewrite <- Z2Qc_inj_0. apply (proj1 (Z2Qc_inj_lt 0 _)).
      unfold entries. cbn [map length]. lia. }
    exists (s / n * 1)%Qc. split.
    + unfold calculateTeamAverages.
      rewrite decide_False
        by (unfold entries; cbn [map length]; discriminate).
      cbv zeta. repeat case_decide;
        rewrite ?lookup_insert_ne by discriminate;
        rewrite lookup_insert_eq, Hs; unfold length_of, JS.int; fold n;
        rewrite div_Fin by (apply pos_nonzero, Hn);
        do 2 f_equal; ring.
    + apply (proj1 (le_div_mul 0 s n 1 Hn)). clearbody n. clear -Hs0.
      qc_lra.
Qed.

End TeamFacts.

(** ** The empty summary *)

Section EmptySummaryFacts.

Import Reports.

Variable Number_toString : number -> string.
Variable toFixed1 : number -> string.

Lemma concat_cons_nonempty (sep : string) (c : Ascii.ascii) (s : string)
    (rest : list string) :
  String.concat sep (String c s :: rest) <> "".
Proof. destruct rest; cbn; discriminate. Qed.

(** X18. The summary of the athlete report is the empty string exactly
    when the report has no record and no goal. *)
Theorem report_summary_empty_iff (stats : list Stat.t)
    (goals : list Goal.t) (sport : string) :
  report_summary Number_toString toFixed1 stats goals sport = ""
  <-> stats = [] /\ goals = [].
Proof.
  unfold report_summary. rewrite generateSummary_unfold.
  unfold Spec.stat_sentences. rewrite calculateAnalytics_totalGames.
  rewrite gt_length_of_0. split.
  - intros H. destruct stats as [|stat stats].
    + split; [reflexivity|]. destruct goals as [|goal goals]; [reflexivity|].
      exfalso. revert H.
      rewrite bool_decide_eq_false_2 by (intros Hne; apply Hne; reflexivity).
      unfold calculateGoalProgress at 1.
      rewrite decide_False by discriminate. cbv zeta.
      rewrite lookup_insert_eq. cbn [JS.ToNumber default from_option id].
      rewrite gt_length_of_0, bool_decide_eq_true_2 by discriminate.
      cbn [app]. unfold Spec.goals_in_progress.
      apply concat_cons_nonempty.
    + exfalso. revert H. rewrite bool_decide_eq_true_2 by discriminate.
      unfold Spec.games_played. apply concat_cons_nonempty.
  - intros [-> ->]. reflexivity.
Qed.

End EmptySummaryFacts.

(** ** The goals routes *)

Section GoalsRouteFacts.

Import GoalsRoute.

Lemma some_is_elem_of (ids : list ObjectId) (user : User) :
  some_is ids user = true <-> id user ∈ ids.
Proof.
  unfold some_is. rewrite existsb_exists. split.
  - intros (other & Hin & Heq). apply bool_decide_eq_true_1 in Heq.
    subst. apply list_elem_of_In, Hin.
  - intros Hin. exists (id user). split; [apply list_elem_of_In, Hin|].
    apply bool_decide_eq_true_2. reflexivity.
Qed.

(** X19. On a goal as [POST /api/goals] creates it, the edit check of the
    progress and update routes passes for the administrators and for the
    creator, and for nobody else: the athlete of a goal created by a coach
    does not pass it. The creator also passes the delete check. *)
Theorem created_goal_edit_check
    (creator other : User) (targetAthleteId : ObjectId) (body : Body.t)
    (clk : Clock) :
  let goal := (create creator targetAthleteId body clk).1 in
  (canEdit other goal = true
   <-> role other = "admin" \/ id other = id creator)
  /\ canDelete creator goal = true.
Proof.
  cbv zeta.
  assert (Hed : forall u,
            some_is (Goal.canEdit (create creator targetAthleteId body clk).1)
              u = true <-> id u = id creator).
  { intros u. rewrite some_is_elem_of. unfold create.
    destruct (Body.startDate body); cbn [new_Date]; case_decide;
      cbn [fst Goal.canEdit app];
      rewrite ?elem_of_cons, elem_of_nil; tauto. }
  split.
  - unfold canEdit. rewrite orb_true_iff, bool_decide_eq_true, Hed.
    reflexivity.
  - unfold canDelete. rewrite !orb_true_iff. left. right.
    apply Hed. reflexivity.
Qed.

(** X20. The creator of a freshly created goal passes the edit check of
    the progress route, and the document that [updateProgress] then hands
    to [save()] has a log of exactly one entry, stamped with the clock
    reading of the update and attributed to the creator. *)
Theorem first_update_of_created_goal
    (creator : User) (targetAthleteId : ObjectId) (body : Body.t)
    (value : Qc) (notes : option string) (clk clk' : Clock) :
  let goal := (create creator targetAthleteId body clk).1 in
  let updated := (Goal.updateProgress value notes (id creator) goal clk').1 in
  canEdit creator goal = true
  /\ Goal.updates (Goal.progress updated)
     = [ {| Goal.date := clk' 0%nat; Goal.value := value;
            Goal.notes := notes; Goal.updatedBy := id creator |} ]
  /\ Goal.currentValue (Goal.targetMetric updated) = value
  /\ Goal.createdBy updated = id creator.
Proof.
  cbv zeta. split.
  { unfold canEdit. apply orb_true_iff. right. apply some_is_elem_of.
    unfold create. destruct (Body.startDate body); cbn [new_Date];
      case_decide; cbn [fst Goal.canEdit app];
      rewrite ?elem_of_cons; tauto. }
  rewrite updateProgress_updates_eq, updateProgress_targetMetric.
  split; [|split].
  - unfold create. destruct (Body.startDate body); cbn [new_Date];
      case_decide; reflexivity.
  - reflexivity.
  - rewrite updateProgress_closed_form. cbv zeta.
    destruct (JS.Math_round _);
      unfold create; destruct (Body.startDate body); cbn [new_Date];
      case_decide; repeat split_if; reflexivity.
Qed.

Lemma bump_lookup (counts : gmap string number) (key k : string) (n : nat) :
  counts !! k = Spec.count_entry n ->
  bump counts key !! k
  = Spec.count_entry (if decide (key = k) then S n else n).
Proof.
  intros Hk. unfold bump. case_decide as Heq.
  - subst. rewrite lookup_insert_eq, Hk.
    destruct n as [|n]; cbn [Spec.count_entry JS.opt_or_zero].
    + rewrite add_int. reflexivity.
    + unfold JS.int at 1. rewrite or_zero_Fin. fold (JS.int (Z.of_nat (S n))).
      rewrite add_int. do 2 f_equal. lia.
  - rewrite lookup_insert_ne by exact Heq. exact Hk.
Qed.

Lemma tally_lookup (goals seen : list Goal.t)
    (counts : gmap string number * gmap string number) (k : string) :
  counts.1 !! k
  = Spec.count_entry (length (filter (fun g => Goal.category g = k) seen)) ->
  counts.2 !! k
  = Spec.count_entry
      (length (filter (fun g => status_name (Goal.status g) = k) seen)) ->
  let result :=
    foldl
      (fun counts goal =>
         (bump counts.1 (Goal.category goal),
          bump counts.2 (status_name (Goal.status goal))))
      counts goals in
  result.1 !! k
  = Spec.count_entry
      (length (filter (fun g => Goal.category g = k) (seen ++ goals)))
  /\ result.2 !! k
     = Spec.count_entry
         (length
            (filter (fun g => status_name (Goal.status g) = k)
               (seen ++ goals))).
Proof.
  revert seen counts.
  induction goals as [|goal goals IH]; intros seen counts Hc Hs.
  - cbn [foldl]. rewrite app_nil_r. auto.
  - cbn [foldl]. cbv zeta.
    replace (seen ++ goal :: goals) with ((seen ++ [goal]) ++ goals)
      by (rewrite <- app_assoc; reflexivity).
    apply IH; cbn [fst snd]; rewrite filter_app, length_app;
      [rewrite (bump_lookup _ _ _ _ Hc)|rewrite (bump_lookup _ _ _ _ Hs)];
      f_equal; rewrite filter_cons, filter_nil;
      repeat case_decide; cbn [length]; try lia; congruence.
Qed.

(** X21. In the goal analytics, [goalsByCategory] and [goalsByStatus] hold
    under each key the number of goals with that category or status, and
    have no property for a key that no goal carries. *)
Theorem tally_counts (goals : list Goal.t) (k : string) :
  goalsByCategory (progressAnalytics goals) !! k
  = Spec.count_entry (length (filter (fun g => Goal.category g = k) goals))
  /\ goalsByStatus (progressAnalytics goals) !! k
     = Spec.count_entry
         (length
            (filter (fun g => status_name (Goal.status g) = k) goals)).
Proof.
  cbn [progressAnalytics goalsByCategory goalsByStatus]. unfold tally.
  apply (tally_lookup goals [] (∅, ∅) k); reflexivity.
Qed.

End GoalsRouteFacts.

Section GoalAnalyticsFacts.

Import GoalsRoute.

Lemma finite_is_Fin (n : number) : JS.is_finite n -> exists q, n = JS.Fin q.
Proof. destruct n as [q| | |]; intros H; try contradiction. eauto. Qed.

Lemma sum_finite_Forall {A} (f : A -> number) (xs : list A) :
  Forall (fun x => JS.is_finite (f x)) xs -> JS.is_finite (Reports.sum f xs).
Proof.
  unfold Reports.sum. generalize (JS.int 0) (I : JS.is_finite (JS.int 0)).
  intros acc Hacc Hxs. revert acc Hacc.
  induction Hxs as [|x xs Hx _ IH]; intros acc Hacc; [exact Hacc|].
  cbn [foldl]. apply IH.
  destruct acc, (f x); try contradiction; exact I.
Qed.

(** X22. The average progress of the goal analytics route, once rounded,
    is the [averageProgress] of the report roll-up, for every list of goals
    with finite percentages: the two routes differ by the rounding only,
    and both give 0 on the empty list. *)
Theorem averageProgress_routes_agree (goals : list Goal.t) :
  Forall (fun g => JS.is_finite (Goal.percentage (Goal.progress g))) goals ->
  Reports.calculateGoalProgress goals !! "averageProgress"
  = Some (JS.Math_round (averageProgress (progressAnalytics goals))).
Proof.
  intros Hall. cbn [progressAnalytics averageProgress].
  destruct goals as [|goal rest]; [reflexivity|].
  unfold Reports.calculateGoalProgress.
  rewrite decide_False by discriminate. cbv zeta.
  simplify_map_eq. do 2 f_equal.
  pose proof (sum_finite_Forall _ _ Hall) as Hsum.
  pose proof (div_length_finite _ goal rest Hsum) as Hdiv.
  destruct (finite_is_Fin _ Hdiv) as [m Hm].
  rewrite Hm, or_zero_Fin. reflexivity.
Qed.

Lemma gt_by_lastUpdate (a b : Recent) :
  JS.gt (by_lastUpdate_desc a b) (JS.int 0)
  = bool_decide (lastUpdate a < lastUpdate b).
Proof.
  unfold by_lastUpdate_desc, JS.gt. rewrite sub_int, lt_int.
  apply bool_decide_ext. lia.
Qed.

Lemma insert_sorted_elem_of (x y : Recent) (l : list Recent) :
  y ∈ insert_sorted by_lastUpdate_desc x l <-> y = x \/ y ∈ l.
Proof.
  induction l as [|z l IH]; cbn [insert_sorted].
  - rewrite elem_of_cons, elem_of_nil. tauto.
  - destruct (JS.gt _ _); rewrite ?elem_of_cons, ?IH, ?elem_of_cons; tauto.
Qed.

Lemma insert_sorted_length (x : Recent) (l : list Recent) :
  length (insert_sorted by_lastUpdate_desc x l) = S (length l).
Proof.
  induction l as [|z l IH]; cbn [insert_sorted]; [reflexivity|].
  destruct (JS.gt _ _); cbn [length]; rewrite ?IH; reflexivity.
Qed.

Lemma insert_sorted_sorted (x : Recent) (l : list Recent) :
  StronglySorted Spec.newest_first l ->
  StronglySorted Spec.newest_first (insert_sorted by_lastUpdate_desc x l).
Proof.
  induction l as [|z l IH]; intros Hl; cbn [insert_sorted].
  - repeat constructor.
  - apply StronglySorted_inv in Hl as [Hl Hz].
    rewrite gt_by_lastUpdate. case_bool_decide as Hlt.
    + constructor; [apply IH, Hl|].
      apply Forall_forall. intros y Hy.
      apply insert_sorted_elem_of in Hy as [->|Hy].
      * unfold Spec.newest_first. lia.
      * rewrite Forall_forall in Hz. apply Hz, Hy.
    + constructor; [constructor; assumption|].
      constructor; [unfold Spec.newest_first; lia|].
      eapply Forall_impl; [exact Hz|]. unfold Spec.newest_first. intros; lia.
Qed.

Lemma sort_sorted (l : list Recent) :
  StronglySorted Spec.newest_first (sort by_lastUpdate_desc l).
Proof.
  induction l as [|x l IH]; cbn [sort foldr]; [constructor|].
  apply insert_sorted_sorted, IH.
Qed.

Lemma sort_elem_of (y : Recent) (l : list Recent) :
  y ∈ sort by_lastUpdate_desc l <-> y ∈ l.
Proof.
  induction l as [|x l IH]; cbn [sort foldr]; [reflexivity|].
  rewrite insert_sorted_elem_of, elem_of_cons. fold (sort by_lastUpdate_desc l).
  rewrite IH. reflexivity.
Qed.

Lemma sort_length (l : list Recent) :
  length (sort by_lastUpdate_desc l) = length l.
Proof.
  induction l as [|x l IH]; cbn [sort foldr length]; [reflexivity|].
  rewrite insert_sorted_length. fold (sort by_lastUpdate_desc l).
  rewrite IH. reflexivity.
Qed.

Lemma StronglySorted_take {A} (R : A -> A -> Prop) (n : nat) (l : list A) :
  StronglySorted R l -> StronglySorted R (take n l).
Proof.
  intros Hl. rewrite <- (take_drop n l) in Hl.
  apply StronglySorted_app in Hl. tauto.
Qed.

(** X23. [recentProgress] is always produced (the read of the last log
    entry never fails on a goal that passed the filter). It has at most
    ten entries, exactly ten when more than ten goals have a progress log;
    they are ordered from the most recent last update to the oldest, and
    each one is the title, percentage and last log date of a goal with a
    non-empty log. *)
Theorem recentProgress_sorted_bounded (goals : list Goal.t) :
  exists entries : list Recent,
    recentProgress (progressAnalytics goals) = Some entries
    /\ length entries
       = Nat.min 10
           (length
              (filter (fun g => Goal.updates (Goal.progress g) <> []) goals))
    /\ StronglySorted Spec.newest_first entries
    /\ Forall
         (fun e =>
            exists (g : Goal.t) (u : Goal.Update),
              g ∈ goals
              /\ last (Goal.updates (Goal.progress g)) = Some u
              /\ e = {| title := Goal.title g;
                        progress := Goal.percentage (Goal.progress g);
                        lastUpdate := Goal.date u |}) entries.
Proof.
  cbn [progressAnalytics recentProgress]. unfold recentProgress_of.
  set (kept :=
    filter
      (fun g =>
         JS.gt (Reports.length_of (Goal.updates (Goal.progress g)))
           (JS.int 0) = true) goals).
  assert (Hkept : kept
    = filter (fun g => Goal.updates (Goal.progress g) <> []) goals).
  { unfold kept. apply list_filter_iff. intros g.
    rewrite gt_length_of_0, bool_decide_eq_true. reflexivity. }
  assert (His : is_Some (mapM recent kept)).
  { apply mapM_is_Some. rewrite Hkept. apply Forall_forall. intros g Hg.
    apply list_elem_of_filter in Hg as [Hne _]. unfold compose, recent.
    apply last_is_Some in Hne as [u ->]. eauto. }
  destruct His as [es Hes]. rewrite Hes. cbn [mbind option_bind].
  eexists. split; [reflexivity|].
  pose proof (length_mapM _ _ _ Hes) as Hlen.
  apply mapM_Some in Hes.
  split; [|split].
  - rewrite length_take, sort_length, <- Hlen, Hkept. reflexivity.
  - apply StronglySorted_take, sort_sorted.
  - apply Forall_forall. intros e He.
    apply elem_of_take in He as (i & Hi & _).
    apply list_elem_of_lookup_2 in Hi.
    apply (proj1 (sort_elem_of _ _)) in Hi.
    apply list_elem_of_lookup_1 in Hi as [j Hj].
    destruct (Forall2_lookup_r _ _ _ _ _ Hes Hj) as (g & Hg & Hrec).
    apply list_elem_of_lookup_2 in Hg. rewrite Hkept in Hg. apply list_elem_of_filter in Hg as [_ Hg].
    unfold recent in Hrec.
    destruct (last (Goal.updates (Goal.progress g))) as [u|] eqn:Hu;
      [|discriminate].
    exists g, u. split; [exact Hg|]. split; [exact Hu|]. congruence.
Qed.

End GoalAnalyticsFacts.

Lemma averageProgress_routes_agree_witness :
  Reports.calculateGoalProgress
    [Samples.goal Goal.increase 50 Goal.active 1000] !! "averageProgress"
  = Some
      (JS.Math_round
         (GoalsRoute.averageProgress
            (GoalsRoute.progressAnalytics
               [Samples.goal Goal.increase 50 Goal.active 1000]))).
Proof.
  apply
    (averageProgress_routes_agree
       [Samples.goal Goal.increase 50 Goal.active 1000]).
  repeat constructor.
Defined.

(** ** The performance analytics route *)

Section StatsRouteFacts.

Import StatsRoute.

(** The default [|| 0] turns [NaN] into [0] and keeps every other
    number. *)
Lemma or_zero_spec (n : number) :
  JS.or_zero n = if decide (n = JS.NaN) then JS.int 0 else n.
Proof.
  destruct n as [q| | |]; try reflexivity.
  rewrite decide_False by discriminate. apply or_zero_Fin.
Qed.

Lemma or_zero_number (n : number) : JS.or_zero n <> JS.NaN.
Proof. rewrite or_zero_spec. case_decide; [discriminate|assumption]. Qed.

(** X24. No average of the performance analytics is [NaN], for every
    list of records and every sport parameter, and no counter of the trend
    data is: each of them ends in the default [|| 0]. On an empty list the
    averages are 0, where the quotient alone is [NaN]. *)
Theorem performance_averages_never_NaN
    (stats : list Stat.t) (sport : option string) :
  let a := performance stats sport in
  averagePoints a <> Some JS.NaN
  /\ averageRebounds a <> Some JS.NaN
  /\ averageAssists a <> Some JS.NaN
  /\ averageFieldGoalPercentage a <> Some JS.NaN
  /\ averageThreePointPercentage a <> Some JS.NaN
  /\ averageFreeThrowPercentage a <> Some JS.NaN
  /\ averagePassAccuracy a <> Some JS.NaN
  /\ averageShots a <> Some JS.NaN
  /\ Forall
       (fun t =>
          points t <> JS.NaN /\ rebounds t <> JS.NaN
          /\ assists t <> JS.NaN /\ goals t <> JS.NaN
          /\ passAccuracy t <> JS.NaN) (trendData a)
  /\ averagePoints (performance [] (Some "basketball")) = Some (JS.int 0)
  /\ averagePassAccuracy (performance [] (Some "soccer")) = Some (JS.int 0).
Proof.
  cbv zeta.
  assert (Htrend : Forall
       (fun t =>
          points t <> JS.NaN /\ rebounds t <> JS.NaN
          /\ assists t <> JS.NaN /\ goals t <> JS.NaN
          /\ passAccuracy t <> JS.NaN) (map trend stats)).
  { apply Forall_map, Forall_forall. intros s _. unfold trend.
    cbn [points rebounds assists goals passAccuracy].
    repeat split; apply or_zero_number. }
  assert (Hsome : forall n : number, Some (JS.or_zero n) <> Some JS.NaN).
  { intros n H. injection H as H. exact (or_zero_number n H). }
  set (empty := performance [] (Some "basketball")).
  assert (Hempty : averagePoints empty = Some (JS.int 0)) by reflexivity.
  clearbody empty.
  set (empty' := performance [] (Some "soccer")).
  assert (Hempty' : averagePassAccuracy empty' = Some (JS.int 0))
    by reflexivity.
  clearbody empty'.
  unfold performance, average_or_zero. repeat case_decide;
    cbn [averagePoints averageRebounds averageAssists
         averageFieldGoalPercentage averageThreePointPercentage
         averageFreeThrowPercentage averagePassAccuracy averageShots
         trendData];
    repeat split; try exact Htrend; try exact Hempty; try exact Hempty';
    try apply Hsome; discriminate.
Qed.

(** X25. On a non-empty list of records the performance analytics route
    and [calculateAnalytics] of the reports agree on the number of games,
    on the best game and on the totals, for basketball and for soccer; on
    every average they agree too, except that the performance route has 0
    where [calculateAnalytics] has [NaN]. *)
Theorem performance_agrees_with_calculateAnalytics
    (stat : Stat.t) (rest : list Stat.t) (sport : string) :
  sport = "basketball" \/ sport = "soccer" ->
  let stats := stat :: rest in
  let a := performance stats (Some sport) in
  let b := Reports.calculateAnalytics stats sport in
  totalGames a = Some (Reports.totalGames b)
  /\ Spec.defaulted (averagePoints a) (Reports.averagePoints b)
  /\ Spec.defaulted (averageRebounds a) (Reports.averageRebounds b)
  /\ Spec.defaulted (averageAssists a) (Reports.averageAssists b)
  /\ Spec.defaulted (averageFieldGoalPercentage a)
       (Reports.averageFieldGoalPercentage b)
  /\ Spec.defaulted (averageThreePointPercentage a)
       (Reports.averageThreePointPercentage b)
  /\ Spec.defaulted (averageFreeThrowPercentage a)
       (Reports.averageFreeThrowPercentage b)
  /\ bestGame a = Reports.bestGame b
  /\ totalGoals a = Reports.totalGoals b
  /\ totalAssists a = Reports.totalAssists b
  /\ Spec.defaulted (averagePassAccuracy a) (Reports.averagePassAccuracy b)
  /\ Spec.defaulted (averageShots a) (Reports.averageShots b).
Proof.
  intros Hsport. cbv zeta.
  unfold performance, Reports.calculateAnalytics, average_or_zero.
  rewrite (decide_False (P := length (stat :: rest) = 0%nat))
    by discriminate.
  destruct Hsport as [-> | ->].
  - rewrite !decide_True by reflexivity.
    cbn [totalGames averagePoints averageRebounds averageAssists
         averageFieldGoalPercentage averageThreePointPercentage
         averageFreeThrowPercentage totalGoals totalAssists bestGame
         averagePassAccuracy averageShots
         Reports.totalGames Reports.averagePoints Reports.averageRebounds
         Reports.averageAssists Reports.averageFieldGoalPercentage
         Reports.averageThreePointPercentage
         Reports.averageFreeThrowPercentage Reports.totalGoals
         Reports.totalAssists Reports.bestGame Reports.averagePassAccuracy
         Reports.averageShots Spec.defaulted].
    rewrite <- !or_zero_spec. repeat split.
  - rewrite (decide_False (P := Some "soccer" = Some "basketball"))
      by discriminate.
    rewrite (decide_False (P := "soccer" = "basketball")) by discriminate.
    rewrite !decide_True by reflexivity.
    cbn [totalGames averagePoints averageRebounds averageAssists
         averageFieldGoalPercentage averageThreePointPercentage
         averageFreeThrowPercentage totalGoals totalAssists bestGame
         averagePassAccuracy averageShots
         Reports.totalGames Reports.averagePoints Reports.averageRebounds
         Reports.averageAssists Reports.averageFieldGoalPercentage
         Reports.averageThreePointPercentage
         Reports.averageFreeThrowPercentage Reports.totalGoals
         Reports.totalAssists Reports.bestGame Reports.averagePassAccuracy
         Reports.averageShots Spec.defaulted].
    rewrite <- !or_zero_spec. repeat split.
Qed.

End StatsRouteFacts.

Lemma performance_agrees_with_calculateAnalytics_witness :
  Spec.defaulted
    (StatsRoute.averagePoints
       (StatsRoute.performance [Samples.game_A; Samples.game_B]
          (Some "basketball")))
    (Reports.averagePoints
       (Reports.calculateAnalytics [Samples.game_A; Samples.game_B]
          "basketball")).
Proof.
  apply
    (performance_agrees_with_calculateAnalytics Samples.game_A
       [Samples.game_B] "basketball").
  left. reflexivity.
Defined.
